(** * shell-ai: the streaming decoder, the request ledger and the client

    A shallow embedding of the Go packages [types], [logger] and [llm]
    (types.go, logger.go and the LLM client), and the properties of the
    specification checked against it.

    Conventions of the embedding.
    - A Go [string] is a [string] of bytes; a Go [int]/[int64] is a [Z]
      (the code only compares, stores and converts these counts, it never
      adds or multiplies them, so no wrap-around can occur); a [float64]
      is a primitive binary64 [float], every operation rounded on its own
      (Go lets a compiler fuse [x*y + z] into one rounding, which can
      change the last bit of a cost; the model does not fuse).
    - A Go [error] is an [option string]: [None] is [nil], [Some msg] an
      error whose [Error()] text is [msg].
    - What the code obtains from outside the repository is an explicit
      input: the JSON decoder, the HTTP round trip, the clock, the process
      environment.  The SQLite table is a list of rows in insertion order. *)

From Stdlib Require Import ZArith String Ascii List Bool Lia.
From Stdlib Require Import PrimFloat FloatOps SpecFloat.
From stdpp Require Import gmap strings list.

Set Warnings "-inexact-float".

Local Open Scope string_scope.
Local Open Scope Z_scope.

(** An [error] value. *)
Definition error := option string.

(* ===================================================================== *)
(** ** Package [types] *)
(* ===================================================================== *)

(** The structs of types.go.  Where two structs have a field of the
    same name, the field of [ResponseData] carries an [R] and the field
    of [LogEntry] an [L] ([RModel], [LModel], [LMessages], [LPromptTokens],
    ...); [Prompt] of [ModelConfig] is [ConfigPrompt], [Content] of the
    delta is [DeltaContent]. *)

Record Message := mkMessage { Role : string; Content : string }.

Record StreamOptions := mkStreamOptions { IncludeUsage : bool }.

Record Payload := mkPayload {
  Model : string;
  Prompt : string;
  MaxTokens : Z;
  Temperature : float;
  Messages : list Message;
  Stream : bool;
  StreamOptions_ : option StreamOptions
}.

(** The anonymous usage struct, [struct{PromptTokens, CompletionTokens,
    TotalTokens int}], shared by [ResponseData], [processStream] and
    [CreateLogEntry]. *)
Record Usage := mkUsage {
  PromptTokens : Z;
  CompletionTokens : Z;
  TotalTokens : Z
}.

Definition emptyUsage : Usage := mkUsage 0 0 0.

Record Delta := mkDelta { DeltaContent : string }.

Record Choice := mkChoice {
  Delta_ : Delta;
  Index : Z;
  FinishReason : string
}.

Record ResponseData := mkResponseData {
  ID : string;
  Object : string;
  Created : Z;
  RModel : string;
  RUsage : Usage;
  Choices : list Choice
}.

Record ModelPricing := mkModelPricing {
  InputPerMillion : float;
  OutputPerMillion : float
}.

Record ModelConfig := mkModelConfig {
  ModelName : string;
  Endpoint : string;
  Auth : string;
  OrgID : string;
  ConfigPrompt : list Message
}.

(** A [time.Time] in UTC, as its civil fields.  [CreateLogEntry] stamps
    every entry with [time.Now().UTC()]. *)
Record Time := mkTime {
  year : Z; month : Z; day : Z;
  hour : Z; minute : Z; second : Z;
  nanosecond : Z
}.

(** The zero [time.Time]: January 1, year 1, 00:00:00 UTC. *)
Definition zeroTime : Time := mkTime 1 1 1 0 0 0 0.

Record LogEntry := mkLogEntry {
  Timestamp : Time;
  LModel : string;
  LMessages : list Message;
  Response : string;
  LPromptTokens : Z;
  LCompletionTokens : Z;
  LTotalTokens : Z;
  EstimatedCost : float;
  RequestID : string;
  DurationMs : Z;
  Error : string
}.

(** [var entry LogEntry]: the zero value. *)
Definition zeroLogEntry : LogEntry :=
  mkLogEntry zeroTime "" [] "" 0 0 0 0%float "" 0 "".

(* ===================================================================== *)
(** ** The parts of Go's [strings] and [bufio] packages the code calls *)
(* ===================================================================== *)

Module strings.

Definition newline : ascii := "010"%char.

(** [strings.HasPrefix]. *)
Fixpoint HasPrefix (s prefix : string) {struct prefix} : bool :=
  match prefix, s with
  | EmptyString, _ => true
  | String p prefix', String c s' => Ascii.eqb p c && HasPrefix s' prefix'
  | String _ _, EmptyString => false
  end.

Fixpoint drop (n : nat) (s : string) : string :=
  match n, s with
  | O, _ => s
  | S n', String _ s' => drop n' s'
  | S _, EmptyString => EmptyString
  end.

(** [strings.TrimPrefix]: [s] without the leading [prefix], or [s]
    itself when it does not start with it. *)
Definition TrimPrefix (s prefix : string) : string :=
  if HasPrefix s prefix then drop (String.length prefix) s else s.

(** [strings.Contains]. *)
Fixpoint Contains (s substr : string) : bool :=
  HasPrefix s substr ||
  match s with
  | EmptyString => false
  | String _ s' => Contains s' substr
  end.

(** [strings.Count] with a one-byte separator: the number of
    occurrences of that byte (Go special-cases this to a byte count). *)
Fixpoint Count (s : string) (sep : ascii) : Z :=
  match s with
  | EmptyString => 0
  | String c s' => (if Ascii.eqb c sep then 1 else 0) + Count s' sep
  end.

(** The one-byte white space of [unicode.IsSpace]:
    tab, line feed, vertical tab, form feed, carriage return, space. *)
Definition asciiSpace (c : ascii) : bool :=
  let n := nat_of_ascii c in
  ((9 <=? n)%nat && (n <=? 13)%nat) || (n =? 32)%nat.

(** The two-byte white space: U+0085 and U+00A0 (C2 85, C2 A0). *)
Definition space2 (c1 c2 : ascii) : bool :=
  (nat_of_ascii c1 =? 194)%nat &&
  ((nat_of_ascii c2 =? 133)%nat || (nat_of_ascii c2 =? 160)%nat).

(** The three-byte white space: U+1680 (E1 9A 80), U+2000..U+200A,
    U+2028, U+2029, U+202F (E2 80 80..8A, A8, A9, AF), U+205F (E2 81 9F)
    and U+3000 (E3 80 80). *)
Definition space3 (c1 c2 c3 : ascii) : bool :=
  let a := nat_of_ascii c1 in
  let b := nat_of_ascii c2 in
  let c := nat_of_ascii c3 in
  ((a =? 225) && (b =? 154) && (c =? 128))%nat ||
  ((a =? 226) && (b =? 128) &&
     (((128 <=? c) && (c <=? 138)) || (c =? 168) || (c =? 169) || (c =? 175)))%nat ||
  ((a =? 226) && (b =? 129) && (c =? 159))%nat ||
  ((a =? 227) && (b =? 128) && (c =? 128))%nat.

(** [strings.TrimLeftFunc(s, unicode.IsSpace)]: drop leading white
    space, one UTF-8 encoded rune at a time. *)
Fixpoint TrimLeftSpace (s : string) : string :=
  match s with
  | EmptyString => EmptyString
  | String c1 s1 =>
      if asciiSpace c1 then TrimLeftSpace s1
      else match s1 with
           | EmptyString => s
           | String c2 s2 =>
               if space2 c1 c2 then TrimLeftSpace s2
               else match s2 with
                    | EmptyString => s
                    | String c3 s3 =>
                        if space3 c1 c2 c3 then TrimLeftSpace s3 else s
                    end
           end
  end.

Fixpoint rev_append (s acc : string) : string :=
  match s with
  | EmptyString => acc
  | String c s' => rev_append s' (String c acc)
  end.

Definition rev (s : string) : string := rev_append s EmptyString.

(** The same on the reversed string, whose runes read last byte first. *)
Fixpoint TrimLeftSpaceRev (s : string) : string :=
  match s with
  | EmptyString => EmptyString
  | String c1 s1 =>
      if asciiSpace c1 then TrimLeftSpaceRev s1
      else match s1 with
           | EmptyString => s
           | String c2 s2 =>
               if space2 c2 c1 then TrimLeftSpaceRev s2
               else match s2 with
                    | EmptyString => s
                    | String c3 s3 =>
                        if space3 c3 c2 c1 then TrimLeftSpaceRev s3 else s
                    end
           end
  end.

(** [strings.TrimRightFunc(s, unicode.IsSpace)]. *)
Definition TrimRightSpace (s : string) : string :=
  rev (TrimLeftSpaceRev (rev s)).

(** [strings.TrimSpace]. *)
Definition TrimSpace (s : string) : string :=
  TrimRightSpace (TrimLeftSpace s).

End strings.

Module bufio.

(** [Reader.ReadString(delim)] on the bytes still to come: the
    bytes up to and including the first [delim] and what follows, or
    [None] when the stream ends (or fails) before a [delim]; the code
    leaves its loop on that error and drops the partial line. *)
Fixpoint ReadString (body : string) (delim : ascii) : option (string * string) :=
  match body with
  | EmptyString => None
  | String c rest =>
      if Ascii.eqb c delim then Some (String c EmptyString, rest)
      else match ReadString rest delim with
           | Some (line, rest') => Some (String c line, rest')
           | None => None
           end
  end.

(** The successive results of [ReadString] until it fails: the lines
    the loop of [processStream] sees, each with its delimiter. *)
Fixpoint readLines_aux (body : string) (delim : ascii) (cur : string) : list string :=
  match body with
  | EmptyString => []
  | String c rest =>
      if Ascii.eqb c delim
      then strings.rev (String c cur) :: readLines_aux rest delim EmptyString
      else readLines_aux rest delim (String c cur)
  end.

Definition readLines (body : string) (delim : ascii) : list string :=
  readLines_aux body delim EmptyString.

Definition lf : string := String strings.newline EmptyString.

(** The body made of the given lines, each followed by a line feed. *)
Fixpoint stream (lines : list string) : string :=
  match lines with
  | [] => ""
  | l :: rest => l ++ lf ++ stream rest
  end.

End bufio.

(* ===================================================================== *)
(** ** [time.Time.Format] and [time.Parse] with the layout [time.RFC3339] *)
(* ===================================================================== *)

Module time.

(** [utod]: the decimal digit [n] as a byte. *)
Definition utod (n : Z) : ascii := ascii_of_nat (Z.to_nat (48 + n)).

(** The decimal digits of [u], most significant first, in front of
    [acc]; a number has no more decimal digits than bits. *)
Fixpoint digits (fuel : nat) (u : Z) (acc : string) : string :=
  match fuel with
  | O => acc
  | S fuel' =>
      if u <? 10 then String (utod u) acc
      else digits fuel' (u / 10) (String (utod (u mod 10)) acc)
  end.

Fixpoint zeros (n : nat) (s : string) : string :=
  match n with
  | O => s
  | S n' => String "0"%char (zeros n' s)
  end.

(** [appendInt(b, x, width)]: [x] in decimal, zero-padded to [width]
    digits, after a minus sign when it is negative. *)
Definition appendInt (x : Z) (width : nat) : string :=
  let u := Z.abs x in
  (if x <? 0 then "-" else "") ++
  (if (width =? 2)%nat && (u <? 100) then
     String (utod (u / 10)) (String (utod (u mod 10)) "")
   else if (width =? 4)%nat && (u <? 10000) then
     String (utod (u / 1000)) (String (utod (u / 100 mod 10))
       (String (utod (u / 10 mod 10)) (String (utod (u mod 10)) "")))
   else
     let ds := digits (S (Z.to_nat (Z.log2 u))) u "" in
     zeros (width - String.length ds) ds).

(** [t.Format(time.RFC3339)] for a time in UTC:
    [2006-01-02T15:04:05Z], the nanoseconds dropped. *)
Definition Format (t : Time) : string :=
  appendInt (year t) 4 ++ "-" ++ appendInt (month t) 2 ++ "-" ++
  appendInt (day t) 2 ++ "T" ++ appendInt (hour t) 2 ++ ":" ++
  appendInt (minute t) 2 ++ ":" ++ appendInt (second t) 2 ++ "Z".

Definition isLeap (y : Z) : bool :=
  (y mod 4 =? 0) && (negb (y mod 100 =? 0) || (y mod 400 =? 0)).

Definition daysIn (m y : Z) : Z :=
  if m =? 2 then (if isLeap y then 29 else 28)
  else if (m =? 4) || (m =? 6) || (m =? 9) || (m =? 11) then 30
  else 31.

Definition digitVal (c : ascii) : option Z :=
  let n := Z.of_nat (nat_of_ascii c) in
  if (48 <=? n) && (n <=? 57) then Some (n - 48) else None.

(** [parseUint(s, min, max)] of the RFC 3339 parser: an unsigned
    decimal number within a range. *)
Fixpoint parseDigits (s : list ascii) (x : Z) : option Z :=
  match s with
  | [] => Some x
  | c :: s' =>
      match digitVal c with
      | Some d => parseDigits s' (x * 10 + d)
      | None => None
      end
  end.

Definition parseUint (s : list ascii) (min max : Z) : option Z :=
  match parseDigits s 0 with
  | Some x => if (x <? min) || (max <? x) then None else Some x
  | None => None
  end.

(** [time.Parse(time.RFC3339, s)] on the 20-byte form that [Format]
    writes, [YYYY-MM-DDTHH:MM:SSZ]: the time it denotes, or [None]
    where [Parse] returns an error.  (RFC 3339 texts with a fraction
    of a second or a numeric zone offset are not of that form;
    [LogResponse] never writes one, and here they yield [None].) *)
Definition Parse (s : string) : option Time :=
  match list_ascii_of_string s with
  | [y1; y2; y3; y4; d1; m1; m2; d2; a1; a2; sT; h1; h2; c1; n1; n2; c2; s1; s2; z] =>
      match parseUint [y1; y2; y3; y4] 0 9999 with
      | None => None
      | Some yr =>
      match parseUint [m1; m2] 1 12 with
      | None => None
      | Some mo =>
      match parseUint [a1; a2] 1 (daysIn mo yr),
            parseUint [h1; h2] 0 23,
            parseUint [n1; n2] 0 59,
            parseUint [s1; s2] 0 59 with
      | Some dy, Some hr, Some mi, Some sc =>
          if Ascii.eqb d1 "-" && Ascii.eqb d2 "-" && Ascii.eqb sT "T" &&
             Ascii.eqb c1 ":" && Ascii.eqb c2 ":" && Ascii.eqb z "Z"
          then Some (mkTime yr mo dy hr mi sc 0)
          else None
      | _, _, _, _ => None
      end end end
  | _ => None
  end.

(** A civil time that a [time.Time] can hold. *)
Definition valid (t : Time) : Prop :=
  1 <= month t <= 12 /\ 1 <= day t <= daysIn (month t) (year t) /\
  0 <= hour t <= 23 /\ 0 <= minute t <= 59 /\ 0 <= second t <= 59 /\
  0 <= nanosecond t < 1000000000.


End time.

(* ===================================================================== *)
(** ** Package [logger] *)
(* ===================================================================== *)

Module logger.

(** Model pricing (per 1M tokens). *)
Definition modelPricing : gmap string ModelPricing :=
  list_to_map [
    ("gpt-4.1",       mkModelPricing 2.50 10.00);
    ("gpt-4.1-mini",  mkModelPricing 0.15 0.60);
    ("gpt-4o",        mkModelPricing 2.50 10.00);
    ("gpt-4o-mini",   mkModelPricing 0.15 0.60);
    ("gpt-4-turbo",   mkModelPricing 10.00 30.00);
    ("gpt-4",         mkModelPricing 30.00 60.00);
    ("gpt-3.5-turbo", mkModelPricing 0.50 1.50)
  ]%float.

(** [float64(n)] for an [int]: the nearest binary64, ties to even. *)
Definition float64 (n : Z) : float :=
  SF2Prim (binary_normalize prec emax n 0 false).

(** [CalculateCost] estimates the cost in USD based on token usage. *)
Definition CalculateCost (model : string) (promptTokens completionTokens : Z) : float :=
  match modelPricing !! model with
  | None => 0%float
  | Some pricing =>
      let inputCost := (float64 promptTokens / 1000000 * InputPerMillion pricing)%float in
      let outputCost := (float64 completionTokens / 1000000 * OutputPerMillion pricing)%float in
      (inputCost + outputCost)%float
  end.

(** [CreateLogEntry]; [now] is the reading of [time.Now().UTC()]. *)
Definition CreateLogEntry (model : string) (messages : list Message)
    (response : string) (usage : Usage) (requestID : string)
    (durationMs : Z) (err : error) (now : Time) : LogEntry :=
  {| Timestamp := now;
     LModel := model;
     LMessages := messages;
     Response := response;
     LPromptTokens := PromptTokens usage;
     LCompletionTokens := CompletionTokens usage;
     LTotalTokens := TotalTokens usage;
     EstimatedCost := CalculateCost model (PromptTokens usage) (CompletionTokens usage);
     RequestID := requestID;
     DurationMs := durationMs;
     Error := match err with Some msg => msg | None => "" end |}.

(** One row of the table [responses] of [initSchema].  The columns
    hold what [LogResponse] binds: texts, integers, and for
    [estimated_cost] a REAL, or NULL ([None]) since SQLite stores a
    NaN as NULL; [conversation_id] is always bound to [nil]. *)
Record Row := mkRow {
  id : string;
  model : string;
  prompt : string;
  system : string;
  response : string;
  conversation_id : option string;
  duration_ms : Z;
  datetime_utc : string;
  input_tokens : Z;
  output_tokens : Z;
  estimated_cost : option float
}.

(** The table [responses], rows in insertion order.  ([conversations]
    is created by [initSchema] and never written or read.)  A
    statement fails only where SQL says it does: a database that is
    locked or cannot be read is not part of the model. *)
Definition Store := list Row.

Record RequestLogger := mkRequestLogger {
  db : bool;        (* the handle [db] is not nil *)
  enabled : bool
}.

(** What the operating system answers to [NewRequestLogger]. *)
Record OS := mkOS {
  Getenv : string -> string;
  UserHomeDir : error;
  MkdirAll : error;
  sql_Open : error;
  Exec_schema : error
}.

(** [initSchema]: [CREATE TABLE IF NOT EXISTS] and the three indexes;
    rows already stored are left as they are. *)
Definition initSchema (os : OS) : error := Exec_schema os.

Definition Errorf (prefix : string) (err : string) : string := prefix ++ err.

(** [NewRequestLogger]: the logger (or [nil]) and the error. *)
Definition NewRequestLogger (os : OS) : option RequestLogger * error :=
  if negb (Getenv os "SHELL_AI_DISABLE_LOGGING" =? "")%string then
    (Some (mkRequestLogger false false), None)
  else
    match UserHomeDir os with
    | Some err => (None, Some (Errorf "failed to get home directory: " err))
    | None =>
    match MkdirAll os with
    | Some err => (None, Some (Errorf "failed to create log directory: " err))
    | None =>
    match sql_Open os with
    | Some err => (None, Some (Errorf "failed to open database: " err))
    | None =>
    match initSchema os with
    | Some err => (None, Some err)
    | None => (Some (mkRequestLogger true true), None)
    end end end end.

(** The loop over [entry.Messages]: the content of the last system
    message and of the last user message. *)
Fixpoint extractMessages (msgs : list Message) (systemMsg promptMsg : string)
    : string * string :=
  match msgs with
  | [] => (systemMsg, promptMsg)
  | msg :: rest =>
      if (Role msg =? "system")%string then extractMessages rest (Content msg) promptMsg
      else if (Role msg =? "user")%string then extractMessages rest systemMsg (Content msg)
      else extractMessages rest systemMsg promptMsg
  end.

(** The values bound to the [INSERT INTO responses] statement. *)
Definition rowOf (entry : LogEntry) : Row :=
  let '(systemMsg, promptMsg) := extractMessages (LMessages entry) "" "" in
  {| id := RequestID entry;
     model := LModel entry;
     prompt := promptMsg;
     system := systemMsg;
     response := Response entry;
     conversation_id := None;
     duration_ms := DurationMs entry;
     datetime_utc := time.Format (Timestamp entry);
     input_tokens := LPromptTokens entry;
     output_tokens := LCompletionTokens entry;
     estimated_cost :=
       if is_nan (EstimatedCost entry) then None else Some (EstimatedCost entry) |}.

Definition hasID (s : Store) (i : string) : bool :=
  existsb (fun r => (id r =? i)%string) s.

(** [INSERT] under [id TEXT PRIMARY KEY]: a row whose id is stored
    already is refused and the table is left as it was. *)
Definition Exec_insert (s : Store) (r : Row) : Store * error :=
  if hasID s (id r)
  then (s, Some "UNIQUE constraint failed: responses.id")
  else ((s ++ [r])%list, None).

(** [LogResponse] logs a single request/response to the database. *)
Definition LogResponse (l : RequestLogger) (entry : LogEntry) (s : Store)
    : Store * error :=
  if negb (enabled l) || negb (db l) then (s, None)
  else Exec_insert s (rowOf entry).

(** [ORDER BY datetime_utc DESC]: texts compare byte by byte; rows
    with equal texts are kept in insertion order here (SQLite
    promises no order among them). *)
Fixpoint insertDesc (r : Row) (l : list Row) : list Row :=
  match l with
  | [] => [r]
  | x :: l' =>
      if String.ltb (datetime_utc x) (datetime_utc r) then r :: l
      else x :: insertDesc r l'
  end.

Definition orderByDatetimeDesc (s : Store) : list Row :=
  fold_left (fun acc r => insertDesc r acc) s [].

(** [LIMIT ?]: a negative limit is no limit. *)
Definition Limit (limit : Z) (rows : list Row) : list Row :=
  if limit <? 0 then rows else take (Z.to_nat limit) rows.

(** The body of the [rows.Next()] loop: [Scan] into a zero
    [LogEntry] (a NULL cost cannot be scanned into a [float64]: the
    row is skipped), rebuild the messages, parse the timestamp. *)
Definition scanRow (r : Row) : option LogEntry :=
  match estimated_cost r with
  | None => None
  | Some cost =>
      Some {| Timestamp :=
                match time.Parse (datetime_utc r) with
                | Some t => t
                | None => zeroTime
                end;
              LModel := model r;
              LMessages :=
                ((if (system r =? "")%string then [] else [mkMessage "system" (system r)]) ++
                 (if (prompt r =? "")%string then [] else [mkMessage "user" (prompt r)]))%list;
              Response := response r;
              LPromptTokens := input_tokens r;
              LCompletionTokens := output_tokens r;
              LTotalTokens := LTotalTokens zeroLogEntry;
              EstimatedCost := cost;
              RequestID := id r;
              DurationMs := duration_ms r;
              Error := Error zeroLogEntry |}
  end.

Fixpoint scanRows (rows : list Row) : list LogEntry :=
  match rows with
  | [] => []
  | r :: rest =>
      match scanRow r with
      | None => scanRows rest
      | Some entry => entry :: scanRows rest
      end
  end.

(** [GetRecentResponses] retrieves the N most recent responses. *)
Definition GetRecentResponses (l : RequestLogger) (limit : Z) (s : Store)
    : list LogEntry * error :=
  if negb (enabled l) || negb (db l) then ([], None)
  else (scanRows (Limit limit (orderByDatetimeDesc s)), None).

End logger.

(* ===================================================================== *)
(** ** Package [llm]: the client and its stream decoder *)
(* ===================================================================== *)

Module llm.

Import logger.

(** What the client calls outside the repository and the model takes
    as given: [json.Unmarshal] into a fresh [ResponseData] ([None]
    when it returns an error), the check of the endpoint by
    [http.NewRequest], and the capacity the Go runtime gives a slice
    it has to grow (old capacity, needed length). *)
Class Runtime := mkRuntime {
  json_Unmarshal : string -> option ResponseData;
  http_NewRequest : string -> error;
  growslice : nat -> nat -> nat
}.

Record Request := mkRequest {
  Method : string;
  URL : string;
  Header : gmap string string;
  Body : Payload
}.

Record HTTPResponse := mkHTTPResponse {
  StatusCode : Z;
  Status : string;
  RespBody : string      (* the bytes [resp.Body] delivers before it ends *)
}.

Inductive DoResult :=
| DoOk (resp : HTTPResponse)
| DoErr (err : string).

(** What the outside world answers during one [Query]: the HTTP round
    trip, the milliseconds between the two clock readings, and the
    reading of [time.Now().UTC()] in [CreateLogEntry]. *)
Record Env := mkEnv {
  Do : Request -> DoResult;
  elapsedMs : Z;
  now : Time
}.

(** What the client sends to its collaborators, in order. *)
Inductive Event :=
| StreamCallback (data : string)    (* [c.StreamCallback(totalData, nil)] *)
| ParseErrorPrinted                 (* [fmt.Println("Error parsing data:", err)] *)
| LogWarning (logErr : string).     (* the warning on standard error *)

(** The client.  [messages] with [spare] is the slice [c.messages]:
    its elements, and the room left in its array ([cap - len]).
    [reqLogger] is the field [logger].  The field [StreamCallback] is
    set by the caller before [Query]; its calls are the events
    [StreamCallback].  The field [httpClient] is [Do] of [Env]. *)
Record LLMClient := mkLLMClient {
  config : ModelConfig;
  messages : list Message;
  spare : nat;
  reqLogger : option RequestLogger
}.

Section WithRuntime.

Context {RT : Runtime}.

(** [NewLLMClient]; a logger that could not be built is [nil]. *)
Definition NewLLMClient (cfg : ModelConfig) (os : OS) : LLMClient :=
  let n := length (ConfigPrompt cfg) in
  {| config := cfg;
     messages := ConfigPrompt cfg;
     spare := if (n =? 0)%nat then 0%nat else (growslice 0 n - n)%nat;
     reqLogger := fst (NewRequestLogger os) |}.

(** [createRequest].  The header keys are in the canonical form
    [Header.Set] stores them under; the body is the payload that
    [json.Marshal] encodes (it cannot fail on a [Payload]).  The
    result is the request, or the text of the error. *)
Definition createRequest (c : LLMClient) (payload : Payload) : Request + string :=
  match http_NewRequest (Endpoint (config c)) with
  | Some err => inr ("failed to create request: " ++ err)
  | None =>
      let h0 : gmap string string := ∅ in
      let h1 :=
        if strings.Contains (Endpoint (config c)) "openai.azure.com"
        then <["Api-Key" := Auth (config c)]> h0
        else <["Authorization" := "Bearer " ++ Auth (config c)]> h0 in
      let h2 :=
        if negb (OrgID (config c) =? "")%string
        then <["Openai-Organization" := OrgID (config c)]> h1
        else h1 in
      let h3 := <["Content-Type" := "application/json"]> h2 in
      inl (mkRequest "POST" (Endpoint (config c)) h3 payload)
  end.

(** The local variables of [processStream], and the calls made. *)
Record Decoder := mkDecoder {
  counter : Z;
  totalData : string;
  usage : Usage;
  requestID : string;
  events : list Event
}.

Definition initDecoder : Decoder := mkDecoder 0 "" emptyUsage "" [].

(** The [for] loop of [processStream] over the lines [ReadString]
    returns; the list ends where [ReadString] fails. *)
Fixpoint processLines (lines : list string) (st : Decoder) : Decoder :=
  match lines with
  | [] => st
  | raw :: rest =>
      let line := strings.TrimSpace raw in
      if (line =? "data: [DONE]")%string then st
      else if strings.HasPrefix line "data:" then
        let payload := strings.TrimPrefix line "data:" in
        match json_Unmarshal payload with
        | None =>
            processLines rest
              (mkDecoder (counter st) (totalData st) (usage st) (requestID st)
                         (events st ++ [ParseErrorPrinted]))
        | Some responseData =>
            let requestID' :=
              if (requestID st =? "")%string && negb (ID responseData =? "")%string
              then ID responseData else requestID st in
            let usage' :=
              if TotalTokens (RUsage responseData) >? 0
              then mkUsage (PromptTokens (RUsage responseData))
                           (CompletionTokens (RUsage responseData))
                           (TotalTokens (RUsage responseData))
              else usage st in
            match Choices responseData with
            | [] =>
                processLines rest
                  (mkDecoder (counter st) (totalData st) usage' requestID' (events st))
            | choice :: _ =>
                let content := DeltaContent (Delta_ choice) in
                if (counter st <? 2) && (strings.Count content strings.newline >? 0) then
                  processLines rest
                    (mkDecoder (counter st) (totalData st) usage' requestID' (events st))
                else
                  let totalData' := totalData st ++ content in
                  processLines rest
                    (mkDecoder (counter st + 1) totalData' usage' requestID'
                               (events st ++ [StreamCallback totalData']))
            end
        end
      else processLines rest st
  end.

(** [processStream]: the text, the usage, the request id, the
    error (always [nil]), and the calls made. *)
Definition processStream (resp : HTTPResponse)
    : string * Usage * string * error * list Event :=
  let st := processLines (bufio.readLines (RespBody resp) strings.newline) initDecoder in
  (totalData st, usage st, requestID st, None, events st).

(** [callStream]. *)
Definition callStream (c : LLMClient) (env : Env) (payload : Payload)
    : Message * Usage * string * error * list Event :=
  match createRequest c payload with
  | inr err =>
      (mkMessage "" "", emptyUsage, "", Some ("failed to create the request: " ++ err), [])
  | inl req =>
      match Do env req with
      | DoErr err =>
          (mkMessage "" "", emptyUsage, "",
           Some ("failed to make the API request: " ++ err), [])
      | DoOk resp =>
          if negb (StatusCode resp =? 200) then
            (mkMessage "" "", emptyUsage, "",
             Some ("API request failed: " ++ Status resp), [])
          else
            let '(content, usage, requestID, err, evs) := processStream resp in
            (mkMessage "assistant" content, usage, requestID, err, evs)
      end
  end.

Record QueryResult := mkQueryResult {
  answer : string;
  err : error;
  client : LLMClient;     (* the client after the call *)
  store : Store;          (* the table [responses] after the call *)
  trace : list Event
}.

(** The two [if c.logger != nil] blocks of [Query]. *)
Definition logBestEffort (c : LLMClient) (logEntry : LogEntry) (s : Store)
    : Store * list Event :=
  match reqLogger c with
  | None => (s, [])
  | Some l =>
      match LogResponse l logEntry s with
      | (s', Some logErr) => (s', [LogWarning logErr])
      | (s', None) => (s', [])
      end
  end.

(** The payload [Query] builds. *)
Definition queryPayload (c : LLMClient) (msgs : list Message) : Payload :=
  {| Model := ModelName (config c);
     Prompt := "";
     MaxTokens := 0;
     Temperature := 0%float;
     Messages := msgs;
     Stream := true;
     StreamOptions_ := Some (mkStreamOptions true) |}.

(** [Query].  The local slice [messages] is [append(c.messages,
    user)]: it shares the array of [c.messages] when that has room
    left, so [c.messages = append(c.messages, message)] then
    overwrites its last element before the entry is logged. *)
Definition Query (c : LLMClient) (env : Env) (s : Store) (query : string)
    : QueryResult :=
  let shared := (0 <? spare c)%nat in
  let msgs := (messages c ++ [mkMessage "user" query])%list in
  let payload := queryPayload c msgs in
  let '(message, usage, requestID, err, evs) := callStream c env payload in
  let durationMs := elapsedMs env in
  match err with
  | Some e =>
      let logEntry :=
        CreateLogEntry (ModelName (config c)) msgs "" usage requestID
                       durationMs err (now env) in
      let '(s', warn) := logBestEffort c logEntry s in
      mkQueryResult "" (Some e) c s' (evs ++ warn)
  | None =>
      let messages' := (messages c ++ [message])%list in
      let c' :=
        {| config := config c;
           messages := messages';
           spare := if shared then (spare c - 1)%nat
                    else (growslice (length (messages c)) (S (length (messages c)))
                          - S (length (messages c)))%nat;
           reqLogger := reqLogger c |} in
      let logged := if shared then messages' else msgs in
      let logEntry :=
        CreateLogEntry (ModelName (config c)) logged (Content message) usage
                       requestID durationMs None (now env) in
      let '(s', warn) := logBestEffort c' logEntry s in
      mkQueryResult (Content message) None c' s' (evs ++ warn)
  end.

End WithRuntime.

End llm.

(* ===================================================================== *)
(** ** Concrete streams and worlds for the examples *)
(* ===================================================================== *)

Module Samples.

Import logger llm.

(** JSON texts are written with single quotes and read with double
    quotes. *)
Fixpoint dq (s : string) : string :=
  match s with
  | EmptyString => EmptyString
  | String c s' =>
      String (if Ascii.eqb c "'" then ascii_of_nat 34 else c) (dq s')
  end.

Definition lf : string := bufio.lf.

(** Four chunks of a chat-completion stream, as they follow [data:]. *)
Definition chunk_ls : string :=
  dq " {'id':'chatcmpl-abc123','choices':[{'delta':{'content':'ls -la'}}]}".

Definition chunk_lf : string :=
  dq " {'id':'chatcmpl-abc123','choices':[{'delta':{'content':'\n'}}]}".

Definition chunk_usage : string :=
  dq " {'id':'chatcmpl-abc123','choices':[],'usage':{'prompt_tokens':45,'completion_tokens':12,'total_tokens':57}}".

Definition chunk_malformed : string := dq " {'id':'chatcmpl-abc123','choices':[{'delta'".

Definition contentChunk (i content : string) : ResponseData :=
  mkResponseData i "" 0 "" emptyUsage [mkChoice (mkDelta content) 0 ""].

(** [json.Unmarshal] on these four texts: the three objects decode to
    the fields they spell out (the escape [\n] is a line feed), the
    truncated one is an error.  No other text is decoded in the
    examples. *)
Definition sample_Unmarshal (payload : string) : option ResponseData :=
  if (payload =? chunk_ls)%string then Some (contentChunk "chatcmpl-abc123" "ls -la")
  else if (payload =? chunk_lf)%string then Some (contentChunk "chatcmpl-abc123" lf)
  else if (payload =? chunk_usage)%string then
    Some (mkResponseData "chatcmpl-abc123" "" 0 "" (mkUsage 45 12 57) [])
  else None.

Definition sampleRuntime : Runtime :=
  {| json_Unmarshal := sample_Unmarshal;
     http_NewRequest := fun _ => None;
     growslice := fun oldCap needed => Nat.max needed (2 * oldCap) |}.

Definition stream := bufio.stream.

Definition sentinel : string := "data: [DONE]".

Definition body_answer : string :=
  stream ["data:" ++ chunk_ls; ""; "data:" ++ chunk_usage; ""; sentinel; ""].

Definition body_suppressed : string :=
  stream ["data:" ++ chunk_lf; ""; "data:" ++ chunk_lf; ""; "data:" ++ chunk_ls; "";
          sentinel; ""].

Definition body_three_breaks : string :=
  stream ["data:" ++ chunk_lf; "data:" ++ chunk_lf; "data:" ++ chunk_lf; sentinel].

Definition body_break_then_malformed : string :=
  stream ["data:" ++ chunk_lf; "data:" ++ chunk_malformed; sentinel].

Definition body_valid_then_malformed : string :=
  stream ["data:" ++ chunk_ls; "data:" ++ chunk_malformed; sentinel].

Definition ok200 (body : string) : HTTPResponse := mkHTTPResponse 200 "200 OK" body.

Definition clock : Time := mkTime 2025 12 14 14 30 15 250000000.

Definition env_answer : Env :=
  mkEnv (fun _ => DoOk (ok200 body_answer)) 1247 clock.

Definition env_500 : Env :=
  mkEnv (fun _ => DoOk (mkHTTPResponse 500 "500 Internal Server Error" "")) 80 clock.

Definition cfg : ModelConfig :=
  mkModelConfig "gpt-4.1-mini" "https://api.openai.com/v1/chat/completions" "sk-test" ""
                [mkMessage "system" "You are a terminal assistant."].

Definition os_enabled : OS := mkOS (fun _ => "") None None None None.

Definition os_disabled : OS :=
  mkOS (fun k => if (k =? "SHELL_AI_DISABLE_LOGGING")%string then "1" else "")
       None None None None.

Definition enabledLogger : RequestLogger := mkRequestLogger true true.

(** A client with the ledger enabled, and one with the opt-out set. *)
Definition c0 : LLMClient := NewLLMClient (RT := sampleRuntime) cfg os_enabled.

Definition question : string := "list files in current directory".

(** Two entries of requests that failed before a byte was received:
    both carry the empty id. *)
Definition failed1 : LogEntry :=
  CreateLogEntry "gpt-4.1-mini" [mkMessage "user" "first"] "" emptyUsage ""
                 80 (Some "API request failed: 500 Internal Server Error") clock.

Definition failed2 : LogEntry :=
  CreateLogEntry "gpt-4.1-mini" [mkMessage "user" "second"] "" emptyUsage ""
                 95 (Some "API request failed: 502 Bad Gateway") clock.

Definition sampleEntry : LogEntry :=
  {| Timestamp := clock;
     LModel := "gpt-4.1-mini";
     LMessages := [mkMessage "user" "test query"];
     Response := "test response";
     LPromptTokens := 10;
     LCompletionTokens := 5;
     LTotalTokens := 15;
     EstimatedCost := 0.000009%float;
     RequestID := "test-req-123";
     DurationMs := 12;
     Error := "" |}.

End Samples.

(* ===================================================================== *)
(** ** Vocabulary of the statements about the decoder *)
(* ===================================================================== *)

Module StreamSpec.

Import llm.

(** The components of what [processStream] returns. *)
Definition resultText {A B C D : Type} (r : string * A * B * C * D) : string :=
  fst (fst (fst (fst r))).
Definition resultErr {A B C D : Type} (r : A * B * C * error * D) : error :=
  snd (fst r).
Definition resultEvents {A B C D : Type} (r : A * B * C * D * list Event) : list Event :=
  snd r.

Definition noLineFeed (l : string) : Prop :=
  strings.Count l strings.newline = 0.

(** A one-byte character that is not white space. *)
Definition visible (c : ascii) : Prop :=
  (nat_of_ascii c < 128)%nat /\ strings.asciiSpace c = false.

Definition hasLineBreak (f : string) : bool :=
  strings.Count f strings.newline >? 0.

(** The rule of the code, on the content fragments alone: a fragment
    is withheld while fewer than two fragments have been forwarded
    and it contains a line break; [n] counts the forwarded ones.
    The result lists the fragments that are forwarded. *)
Fixpoint forwarded (n : Z) (fs : list string) : list string :=
  match fs with
  | [] => []
  | f :: fs' =>
      if (n <? 2) && hasLineBreak f then forwarded n fs'
      else f :: forwarded (n + 1) fs'
  end.

(** The texts the sink receives when the fragments [fs] are appended
    one after the other to [acc]. *)
Fixpoint sinkTexts (acc : string) (fs : list string) : list string :=
  match fs with
  | [] => []
  | f :: fs' => (acc ++ f) :: sinkTexts (acc ++ f) fs'
  end.

(** The texts passed to the sink, among the calls made. *)
Fixpoint sinkCalls (evs : list Event) : list string :=
  match evs with
  | [] => []
  | StreamCallback data :: evs' => data :: sinkCalls evs'
  | _ :: evs' => sinkCalls evs'
  end.

Fixpoint joined (fs : list string) : string :=
  match fs with
  | [] => ""
  | f :: fs' => f ++ joined fs'
  end.

Section WithRuntime.

Context {RT : Runtime}.

(** The line [l] of a stream, read with its line feed and trimmed,
    is the terminal sentinel. *)
Definition sentinelLine (l : string) : Prop :=
  noLineFeed l /\ strings.TrimSpace (l ++ bufio.lf) = "data: [DONE]".

(** [l] is a prefixed line other than the sentinel whose remainder
    is [payload]. *)
Definition dataLine (l payload : string) : Prop :=
  noLineFeed l /\
  strings.TrimSpace (l ++ bufio.lf) <> "data: [DONE]" /\
  strings.HasPrefix (strings.TrimSpace (l ++ bufio.lf)) "data:" = true /\
  strings.TrimPrefix (strings.TrimSpace (l ++ bufio.lf)) "data:" = payload.

(** [l] is a prefixed line whose remainder decodes to [chunk], with
    a first choice that carries the content fragment [f]. *)
Definition contentLine (l : string) (chunk : ResponseData) (f : string) : Prop :=
  exists payload choice others,
    dataLine l payload /\
    json_Unmarshal payload = Some chunk /\
    Choices chunk = choice :: others /\
    DeltaContent (Delta_ choice) = f.

(** [l] is a prefixed line whose remainder is not valid JSON. *)
Definition malformedLine (l : string) : Prop :=
  exists payload, dataLine l payload /\ json_Unmarshal payload = None.

(** [l] is a prefixed line whose remainder decodes to a chunk without
    choices (the chunk that carries the usage is one). *)
Definition choicelessLine (l : string) (chunk : ResponseData) : Prop :=
  exists payload,
    dataLine l payload /\ json_Unmarshal payload = Some chunk /\ Choices chunk = [].

(** [l] is neither the sentinel nor a prefixed line (a blank line
    between two events is one). *)
Definition otherLine (l : string) : Prop :=
  noLineFeed l /\
  strings.TrimSpace (l ++ bufio.lf) <> "data: [DONE]" /\
  strings.HasPrefix (strings.TrimSpace (l ++ bufio.lf)) "data:" = false.

(** A line that carries no content fragment. *)
Definition silentLine (l : string) : Prop :=
  otherLine l \/ malformedLine l \/ exists chunk, choicelessLine l chunk.

(** [Fragments ls fs]: the lines [ls], none of them the sentinel, carry
    the content fragments [fs], in this order, among lines that carry
    none. *)
Inductive Fragments : list string -> list string -> Prop :=
| Fragments_nil : Fragments [] []
| Fragments_content l chunk f ls fs :
    contentLine l chunk f -> Fragments ls fs -> Fragments (l :: ls) (f :: fs)
| Fragments_silent l ls fs :
    silentLine l -> Fragments ls fs -> Fragments (l :: ls) fs.

(** The request id and the usage after the chunk [chunk]. *)
Definition idAfter (st : Decoder) (chunk : ResponseData) : string :=
  if (requestID st =? "")%string && negb (ID chunk =? "")%string
  then ID chunk else requestID st.

Definition usageAfter (st : Decoder) (chunk : ResponseData) : Usage :=
  if TotalTokens (RUsage chunk) >? 0
  then mkUsage (PromptTokens (RUsage chunk)) (CompletionTokens (RUsage chunk))
               (TotalTokens (RUsage chunk))
  else usage st.

(** The decoder after a content line. *)
Definition afterContent (st : Decoder) (chunk : ResponseData) (f : string) : Decoder :=
  if (counter st <? 2) && hasLineBreak f then
    mkDecoder (counter st) (totalData st) (usageAfter st chunk) (idAfter st chunk)
              (events st)
  else
    mkDecoder (counter st + 1) (totalData st ++ f) (usageAfter st chunk)
              (idAfter st chunk)
              (events st ++ [StreamCallback (totalData st ++ f)]).

(** The decoder after a malformed line. *)
Definition afterMalformed (st : Decoder) : Decoder :=
  mkDecoder (counter st) (totalData st) (usage st) (requestID st)
            (events st ++ [ParseErrorPrinted]).

End WithRuntime.

End StreamSpec.

(* ===================================================================== *)
(** ** Package [logs]: the command that shows the ledger *)
(* ===================================================================== *)

Module logs.

Import logger.

(** The flags of the command: [-n], [--json], [--path], [--status]. *)
Record Flags := mkFlags {
  limitFlag : Z;
  jsonFlag : bool;
  pathFlag : bool;
  statusFlag : bool
}.

(** What the command writes, one constructor for each print statement
    of logs.go, with the values it prints (the format strings and the
    styles are constants of the statement). *)
Inductive Printed :=
| ErrorOpening (err : string)       (* "Error opening logs database: %v", on stderr *)
| ErrorRetrieving (err : string)    (* "Error retrieving logs: %v", on stderr *)
| Exit1                             (* [os.Exit(1)] *)
| DBPath                            (* [fmt.Println(log.GetDBPath())] *)
| NoLogsFound                       (* "No logs found. Make some requests ..." *)
| JSONText (entry : LogEntry)       (* the indented JSON of an entry *)
| Header (n : Z) (t : Time) (model : string)   (* "Entry %d - %s [%s]" *)
| Blank                             (* [fmt.Println()] *)
| Label (text : string)             (* [fmt.Print(labelStyle.Render(text))] *)
| PromptValue (content : string)
| ErrorValue (text : string)        (* [errorStyle.Render("ERROR: " + entry.Error)] *)
| CodeValue (response : string)     (* [codeStyle.Render(response)] *)
| ResponseValue (response : string) (* [valueStyle.Render(response)] *)
| TokensLine (input output total : Z)   (* "%d input + %d output = %d total" *)
| CostLine (cost : float)           (* "$%.6f" *)
| DurationLine (ms : Z)             (* "%dms" *)
| RequestIDLine (id : string)
| Divider                           (* eighty box-drawing dashes *)
| StatusPath                        (* "Database path:" and the path *)
| ErrorReading (err : string)       (* "Error reading database: %v", on stderr *)
| TotalRequests (n : Z)             (* "Total requests: %d" *)
| TotalTokensLine (n : Z)           (* "Total tokens: %d" *)
| TotalCostLine (cost : float)      (* "Total estimated cost: $%.6f" *)
| ByModelHeader                     (* "Requests by model:" *)
| ModelCounts (counts : gmap string Z).
    (* one line "  %s: %d" for each model, in the order of the map *)

(** A Go [int] of 64 bits: the sum of two wraps around. *)
Definition wrapInt (z : Z) : Z :=
  (z + 9223372036854775808) mod 18446744073709551616 - 9223372036854775808.

(** [s[:n]] for [n] within the length of [s]. *)
Fixpoint sliceTo (n : nat) (s : string) : string :=
  match n, s with
  | O, _ => EmptyString
  | S n', String c s' => String c (sliceTo n' s')
  | S _, EmptyString => EmptyString
  end.

(** [json.MarshalIndent] of an entry fails on a cost that is not a
    finite number, and on a timestamp outside the years 0 to 9999. *)
Definition marshalFails (entry : LogEntry) : bool :=
  negb (is_finite (EstimatedCost entry)) ||
  (year (Timestamp entry) <? 0) || (9999 <? year (Timestamp entry)).

(** [printJSON]. *)
Fixpoint printJSON (entries : list LogEntry) : list Printed :=
  match entries with
  | [] => []
  | entry :: rest =>
      if marshalFails entry then printJSON rest
      else JSONText entry :: printJSON rest
  end.

(** The loop that prints the prompt: the first user message. *)
Fixpoint printPrompt (msgs : list Message) : list Printed :=
  match msgs with
  | [] => []
  | msg :: rest =>
      if (Role msg =? "user")%string then [PromptValue (Content msg)]
      else printPrompt rest
  end.

(** The response as it is shown: long ones are cut to 497 bytes and
    three dots. *)
Definition shownResponse (response : string) : string :=
  if (500 <? String.length response)%nat
  then sliceTo 497 response ++ "..."
  else response.

Definition tripleBacktick : string := "```".

(** The body of the loop of [printFormatted] for the entry at index
    [i] of [len] entries. *)
Definition printEntry (len i : Z) (entry : LogEntry) : list Printed :=
  ([Header (len - i) (Timestamp entry) (LModel entry); Blank;
    Label "Prompt: "] ++
   printPrompt (LMessages entry) ++
   [Blank; Label "Response: "] ++
   (if negb (Error entry =? "")%string then [ErrorValue ("ERROR: " ++ Error entry)]
    else
      let response := shownResponse (Response entry) in
      if strings.Contains response tripleBacktick then [CodeValue response]
      else [ResponseValue response]) ++
   [Blank; Label "Tokens: ";
    TokensLine (LPromptTokens entry) (LCompletionTokens entry) (LTotalTokens entry);
    Label "Cost: "; CostLine (EstimatedCost entry)] ++
   (if DurationMs entry >? 0 then [Label "Duration: "; DurationLine (DurationMs entry)]
    else []) ++
   (if negb (RequestID entry =? "")%string
    then [Label "Request ID: "; RequestIDLine (RequestID entry)] else []) ++
   (if i <? len - 1 then [Divider; Blank] else []))%list.

Fixpoint printFormatted_from (len i : Z) (entries : list LogEntry) : list Printed :=
  match entries with
  | [] => []
  | entry :: rest => (printEntry len i entry ++ printFormatted_from len (i + 1) rest)%list
  end.

(** [printFormatted]. *)
Definition printFormatted (entries : list LogEntry) : list Printed :=
  printFormatted_from (Z.of_nat (length entries)) 0 entries.

(** The totals of [printStatus]: the loop over the entries. *)
Record Totals := mkTotals {
  totalTokens : Z;
  totalCost : float;
  modelCounts : gmap string Z
}.

Definition addEntry (t : Totals) (entry : LogEntry) : Totals :=
  {| totalTokens := wrapInt (totalTokens t + LTotalTokens entry);
     totalCost := (totalCost t + EstimatedCost entry)%float;
     modelCounts :=
       <[LModel entry := wrapInt (default 0 (modelCounts t !! LModel entry) + 1)]>
         (modelCounts t) |}.

Definition totalsOf (entries : list LogEntry) : Totals :=
  fold_left addEntry entries (mkTotals 0 0%float ∅).

(** [printStatus]. *)
Definition printStatus (log : RequestLogger) (s : Store) : list Printed :=
  match GetRecentResponses log 1000000 s with
  | (_, Some err) => [StatusPath; ErrorReading err]
  | (entries, None) =>
      if (length entries =? 0)%nat then [StatusPath; TotalRequests 0]
      else
        let t := totalsOf entries in
        [StatusPath;
         TotalRequests (Z.of_nat (length entries));
         TotalTokensLine (totalTokens t);
         TotalCostLine (totalCost t);
         ByModelHeader;
         ModelCounts (modelCounts t)]
  end.

(** [runLogsCommand].  [NewRequestLogger] returns a logger or an
    error, so its third case does not occur. *)
Definition runLogsCommand (flags : Flags) (os : OS) (s : Store) : list Printed :=
  match NewRequestLogger os with
  | (_, Some err) => [ErrorOpening err; Exit1]
  | (None, None) => []
  | (Some log, None) =>
      if pathFlag flags then [DBPath]
      else if statusFlag flags then printStatus log s
      else
        match GetRecentResponses log (limitFlag flags) s with
        | (_, Some err) => [ErrorRetrieving err; Exit1]
        | (entries, None) =>
            if (length entries =? 0)%nat then [NoLogsFound]
            else if jsonFlag flags then printJSON entries
            else printFormatted entries
        end
  end.

End logs.

(* ===================================================================== *)
(** ** Vocabulary of the further statements *)
(* ===================================================================== *)

Module MoreSpec.

Import logger llm StreamSpec.

Definition resultUsage {A B C D : Type} (r : A * Usage * B * C * D) : Usage :=
  snd (fst (fst (fst r))).
Definition resultID {A B C D : Type} (r : A * B * string * C * D) : string :=
  snd (fst (fst r)).

(** A carriage return, as it precedes the line feed in a CRLF line
    ending. *)
Definition cr : string := String "013"%char EmptyString.

Definition isLogWarning (e : Event) : bool :=
  match e with LogWarning _ => true | _ => false end.

(** Each text of the list starts with the one before it. *)
Fixpoint growing (texts : list string) : Prop :=
  match texts with
  | [] => True
  | a :: rest =>
      match rest with
      | [] => True
      | b :: _ => strings.HasPrefix b a = true
      end /\ growing rest
  end.

(** The line, read with its line feed and trimmed, is not the
    sentinel. *)
Definition notSentinel (l : string) : Prop :=
  noLineFeed l /\ strings.TrimSpace (l ++ bufio.lf) <> "data: [DONE]".

(** The content of the last message with the role "user", or the
    empty text. *)
Definition lastUser (msgs : list Message) : string :=
  snd (extractMessages msgs "" "").


(** [t1] is an earlier second than [t2]: the civil fields compared
    from the year down to the second. *)
Definition earlier (t1 t2 : Time) : Prop :=
  year t1 < year t2 \/
  (year t1 = year t2 /\
   (month t1 < month t2 \/
    (month t1 = month t2 /\
     (day t1 < day t2 \/
      (day t1 = day t2 /\
       (hour t1 < hour t2 \/
        (hour t1 = hour t2 /\
         (minute t1 < minute t2 \/
          (minute t1 = minute t2 /\ second t1 < second t2))))))))).

Section WithRuntime.

Context {RT : Runtime}.

(** One turn of the loop of [processStream] on the line [raw]:
    [None] where the loop is left. *)
Definition lineStep (raw : string) (st : Decoder) : option Decoder :=
  let line := strings.TrimSpace raw in
  if (line =? "data: [DONE]")%string then None
  else if strings.HasPrefix line "data:" then
    match json_Unmarshal (strings.TrimPrefix line "data:") with
    | None => Some (afterMalformed st)
    | Some chunk =>
        match Choices chunk with
        | [] =>
            Some (mkDecoder (counter st) (totalData st) (usageAfter st chunk)
                            (idAfter st chunk) (events st))
        | choice :: _ => Some (afterContent st chunk (DeltaContent (Delta_ choice)))
        end
    end
  else Some st.

(** [l] is a prefixed line whose remainder decodes to [chunk]. *)
Definition chunkLine (l : string) (chunk : ResponseData) : Prop :=
  exists payload, dataLine l payload /\ json_Unmarshal payload = Some chunk.

(** A line that brings no request id. *)
Definition idlessLine (l : string) : Prop :=
  otherLine l \/ malformedLine l \/ exists chunk, chunkLine l chunk /\ ID chunk = "".

(** A line that brings no usage: any line but a chunk with a positive
    total. *)
Definition usagelessLine (l : string) : Prop :=
  noLineFeed l /\
  forall chunk, chunkLine l chunk -> TotalTokens (RUsage chunk) <= 0.

End WithRuntime.

End MoreSpec.

(* ===================================================================== *)
(** ** More concrete streams and worlds *)
(* ===================================================================== *)

Module Samples2.

Import logger llm Samples.

(** Chunks with different ids and usages. *)
Definition chunk_a : string :=
  dq " {'id':'chatcmpl-1','choices':[{'delta':{'content':'git '}}]}".

Definition chunk_b : string :=
  dq " {'id':'chatcmpl-2','choices':[{'delta':{'content':'status'}}]}".

Definition chunk_noid : string :=
  dq " {'choices':[{'delta':{'content':''}}]}".

Definition chunk_usage1 : string :=
  dq " {'id':'chatcmpl-1','choices':[],'usage':{'prompt_tokens':10,'completion_tokens':5,'total_tokens':15}}".

Definition chunk_usage2 : string :=
  dq " {'id':'chatcmpl-1','choices':[],'usage':{'prompt_tokens':45,'completion_tokens':12,'total_tokens':57}}".

Definition chunk_usage0 : string :=
  dq " {'id':'chatcmpl-1','choices':[],'usage':{'prompt_tokens':7,'completion_tokens':0,'total_tokens':0}}".

(** [json.Unmarshal] on these six texts; each decodes to the fields it
    spells out. *)
Definition sample_Unmarshal2 (payload : string) : option ResponseData :=
  if (payload =? chunk_a)%string then Some (contentChunk "chatcmpl-1" "git ")
  else if (payload =? chunk_b)%string then Some (contentChunk "chatcmpl-2" "status")
  else if (payload =? chunk_noid)%string then Some (contentChunk "" "")
  else if (payload =? chunk_usage1)%string then
    Some (mkResponseData "chatcmpl-1" "" 0 "" (mkUsage 10 5 15) [])
  else if (payload =? chunk_usage2)%string then
    Some (mkResponseData "chatcmpl-1" "" 0 "" (mkUsage 45 12 57) [])
  else if (payload =? chunk_usage0)%string then
    Some (mkResponseData "chatcmpl-1" "" 0 "" (mkUsage 7 0 0) [])
  else None.

(** A runtime whose slices grow to twice the length that is needed. *)
Definition sampleRuntime2 : Runtime :=
  {| json_Unmarshal := sample_Unmarshal2;
     http_NewRequest := fun url => if (url =? "")%string then Some "empty url" else None;
     growslice := fun oldCap needed => (2 * needed)%nat |}.

Definition body_two_ids : string :=
  stream [""; "data:" ++ chunk_noid; "data:" ++ chunk_a; "data:" ++ chunk_b; sentinel].

Definition body_usages : string :=
  stream ["data:" ++ chunk_a; "data:" ++ chunk_usage1; "data:" ++ chunk_usage2;
          "data:" ++ chunk_usage0; sentinel].

Definition body_git : string :=
  stream ["data:" ++ chunk_a; ""; "data:" ++ chunk_b; ""; "data:" ++ chunk_usage1; "";
          sentinel; ""].

Definition env_git : Env := mkEnv (fun _ => DoOk (ok200 body_git)) 300 clock.

Definition env_refused : Env := mkEnv (fun _ => DoErr "connection refused") 5 clock.

Definition cfg_azure : ModelConfig :=
  mkModelConfig "gpt-4o" "https://example.openai.azure.com/openai/deployments/x"
                "azure-key" "org-1" [].

Definition cfg_user_prompt : ModelConfig :=
  mkModelConfig "gpt-4.1" "https://api.openai.com/v1/chat/completions" "sk-test" ""
                [mkMessage "system" "You are a terminal assistant.";
                 mkMessage "user" "undo last commit";
                 mkMessage "assistant" "git reset HEAD~1"].

Definition os_no_home : OS := mkOS (fun _ => "") (Some "$HOME is not defined") None None None.

(** A client whose slice of messages has room left (three messages in
    an array of six), and one whose slice is full. *)
Definition c_room : LLMClient := NewLLMClient (RT := sampleRuntime2) cfg_user_prompt os_enabled.

Definition c_full : LLMClient :=
  mkLLMClient cfg_user_prompt (ConfigPrompt cfg_user_prompt) 0 (Some enabledLogger).

Definition c_azure : LLMClient := NewLLMClient (RT := sampleRuntime2) cfg_azure os_enabled.

Definition laterEntry : LogEntry :=
  {| Timestamp := mkTime 2025 12 14 14 30 16 0;
     LModel := "gpt-4.1";
     LMessages := [mkMessage "user" "later query"];
     Response := "later response";
     LPromptTokens := 20;
     LCompletionTokens := 7;
     LTotalTokens := 27;
     EstimatedCost := 0.00012%float;
     RequestID := "test-req-124";
     DurationMs := 30;
     Error := "" |}.

Definition twoRows : Store := [rowOf sampleEntry; rowOf laterEntry].

Definition flags_default : logs.Flags := logs.mkFlags 3 false false false.
Definition flags_status : logs.Flags := logs.mkFlags 3 false false true.

End Samples2.

(* ===================================================================== *)
(** ** Vocabulary of the statements about the logs command *)
(* ===================================================================== *)

Module LogsSpec.

Import logger logs.

(** A line that shows a total of tokens shows zero. *)
Definition showsZeroTotal (p : Printed) : Prop :=
  match p with
  | TokensLine _ _ total => total = 0
  | TotalTokensLine n => n = 0
  | _ => True
  end.

Definition isErrorValue (p : Printed) : bool :=
  match p with ErrorValue _ => true | _ => false end.


(** The number of entries of the model [m]. *)
Fixpoint countModel (m : string) (entries : list LogEntry) : nat :=
  match entries with
  | [] => 0
  | e :: rest => ((if (LModel e =? m)%string then 1 else 0) + countModel m rest)%nat
  end.

End LogsSpec.

(* ===================================================================== *)
(** * Properties *)
(* ===================================================================== *)

#[local] Arguments String.append !_ _ / : simpl nomatch.

(** ** Reading lines *)

Lemma Count_nonneg (s : string) (c : ascii) : 0 <= strings.Count s c.
Proof.
  induction s as [|a s IH]; simpl; [lia|].
  destruct (Ascii.eqb a c); lia.
Qed.

Lemma rev_append_rev_append (l acc1 acc2 : string) :
  strings.rev_append (strings.rev_append l acc1) acc2
  = strings.rev_append acc1 (l ++ acc2).
Proof.
  revert acc1 acc2.
  induction l as [|c l IH]; intros acc1 acc2; simpl; [reflexivity|].
  rewrite IH. reflexivity.
Qed.

Lemma string_app_assoc (a b c : string) : (a ++ b) ++ c = a ++ (b ++ c).
Proof. induction a as [|x a IH]; simpl; congruence. Qed.

Lemma string_app_nil_r (a : string) : a ++ "" = a.
Proof. induction a as [|x a IH]; simpl; congruence. Qed.

(** [readLines] lists exactly what repeated calls of [ReadString]
    return. *)
Lemma readLines_aux_ReadString (body : string) (d : ascii) (cur : string) :
  bufio.readLines_aux body d cur =
  match bufio.ReadString body d with
  | None => []
  | Some (line, rest) =>
      strings.rev_append cur line :: bufio.readLines_aux rest d ""
  end.
Proof.
  revert cur.
  induction body as [|c body IH]; intros cur; simpl; [reflexivity|].
  destruct (Ascii.eqb c d) eqn:Hc.
  - unfold strings.rev. simpl. reflexivity.
  - rewrite IH. destruct (bufio.ReadString body d) as [[line rest]|]; reflexivity.
Qed.

Lemma readLines_ReadString (body : string) (d : ascii) :
  bufio.readLines body d =
  match bufio.ReadString body d with
  | None => []
  | Some (line, rest) => line :: bufio.readLines rest d
  end.
Proof.
  unfold bufio.readLines. rewrite readLines_aux_ReadString.
  destruct (bufio.ReadString body d) as [[line rest]|]; reflexivity.
Qed.

Lemma ReadString_line (l rest : string) :
  strings.Count l strings.newline = 0 ->
  bufio.ReadString (l ++ bufio.lf ++ rest) strings.newline = Some (l ++ bufio.lf, rest).
Proof.
  induction l as [|c l IH]; simpl; intros H; [reflexivity|].
  pose proof (Count_nonneg l strings.newline) as Hn.
  destruct (Ascii.eqb c strings.newline) eqn:Hc; [lia|].
  simpl in IH. rewrite IH by lia. reflexivity.
Qed.

Lemma readLines_stream (ls : list string) :
  Forall (fun l => strings.Count l strings.newline = 0) ls ->
  bufio.readLines (bufio.stream ls) strings.newline
  = map (fun l => l ++ bufio.lf) ls.
Proof.
  induction 1 as [|l ls Hl Hls IH]; [reflexivity|].
  change (bufio.stream (l :: ls)) with (l ++ bufio.lf ++ bufio.stream ls).
  rewrite readLines_ReadString, ReadString_line by exact Hl.
  rewrite IH. reflexivity.
Qed.

(** ** The RFC 3339 text of a timestamp *)

(** Let [lia] reason about division and remainder by constants. *)
Ltac Zify.zify_post_hook ::= Z.to_euclidean_division_equations.


Lemma appendInt_2 (n : Z) :
  0 <= n <= 99 ->
  time.appendInt n 2 = String (time.utod (n / 10)) (String (time.utod (n mod 10)) "").
Proof.
  intros H. unfold time.appendInt.
  rewrite Z.abs_eq by lia.
  destruct (Z.ltb_spec n 0); [lia|].
  destruct (Z.ltb_spec n 100); [|lia].
  reflexivity.
Qed.

Lemma appendInt_4 (n : Z) :
  0 <= n <= 9999 ->
  time.appendInt n 4 =
  String (time.utod (n / 1000)) (String (time.utod (n / 100 mod 10))
    (String (time.utod (n / 10 mod 10)) (String (time.utod (n mod 10)) ""))).
Proof.
  intros H. unfold time.appendInt.
  rewrite Z.abs_eq by lia.
  destruct (Z.ltb_spec n 0); [lia|].
  destruct (Z.ltb_spec n 10000); [|lia].
  reflexivity.
Qed.



Lemma daysIn_le_31 (m y : Z) : time.daysIn m y <= 31.
Proof.
  unfold time.daysIn.
  destruct (m =? 2); [destruct (time.isLeap y); lia|].
  destruct ((m =? 4) || (m =? 6) || (m =? 9) || (m =? 11)); lia.
Qed.


(** ** The ledger *)

Section Ledger.

Import logger.

Lemma id_rowOf (e : LogEntry) : id (rowOf e) = RequestID e.
Proof. unfold rowOf. destruct (extractMessages _ _ _). reflexivity. Qed.

Lemma hasID_app (s1 s2 : Store) (i : string) :
  hasID (s1 ++ s2)%list i = hasID s1 i || hasID s2 i.
Proof. unfold hasID. apply existsb_app. Qed.

Lemma hasID_rowOf (e : LogEntry) : hasID [rowOf e] (RequestID e) = true.
Proof.
  unfold hasID. simpl. rewrite id_rowOf, String.eqb_refl. reflexivity.
Qed.

Lemma scanRows_In (rows : list Row) (e : LogEntry) :
  In e (scanRows rows) -> exists r, In r rows /\ scanRow r = Some e.
Proof.
  induction rows as [|r rows IH]; simpl; [tauto|].
  destruct (scanRow r) as [e0|] eqn:Hr.
  - intros [<- | Hin].
    + exists r. auto.
    + destruct (IH Hin) as (r' & Hr' & He). exists r'. auto.
  - intros Hin. destruct (IH Hin) as (r' & Hr' & He). exists r'. auto.
Qed.

(** C7. For every model in the pricing table and all token counts
    (non-negative ones among them), [CalculateCost] is the prompt
    count over a million times the input price plus the completion
    count over a million times the output price; for a model that is
    not in the table it is the value 0.  The result type has no error
    component. *)
Theorem CalculateCost_spec (m : string) (p c : Z) :
  (forall pricing, modelPricing !! m = Some pricing ->
     CalculateCost m p c
     = (float64 p / 1000000 * InputPerMillion pricing
        + float64 c / 1000000 * OutputPerMillion pricing)%float) /\
  (modelPricing !! m = None -> CalculateCost m p c = 0%float).
Proof.
  unfold CalculateCost. split.
  - intros pricing ->. reflexivity.
  - intros ->. reflexivity.
Qed.

(** C8. With the opt-out variable set to a non-empty value,
    [NewRequestLogger] succeeds with a logger for which [LogResponse]
    returns no error and leaves the table as it is, and
    [GetRecentResponses] returns no entry and no error, whatever the
    entry and the limit. *)
Theorem disabled_logger_is_noop (os : OS) :
  Getenv os "SHELL_AI_DISABLE_LOGGING" <> "" ->
  exists l,
    NewRequestLogger os = (Some l, None) /\
    (forall entry s, LogResponse l entry s = (s, None)) /\
    (forall limit s, GetRecentResponses l limit s = ([], None)).
Proof.
  intros Hset. exists (mkRequestLogger false false).
  unfold NewRequestLogger.
  destruct (String.eqb_spec (Getenv os "SHELL_AI_DISABLE_LOGGING") "") as [E|_];
    [contradiction|].
  repeat split.
Qed.

(** C10. Every entry [GetRecentResponses] returns has an empty error
    text and a total token count of zero, whatever was logged: no
    column keeps either, and the read does not fill them in. *)
Theorem GetRecentResponses_drops_error_and_total
    (l : RequestLogger) (limit : Z) (s : Store) (e : LogEntry) :
  In e (fst (GetRecentResponses l limit s)) ->
  Error e = "" /\ LTotalTokens e = 0.
Proof.
  unfold GetRecentResponses.
  destruct (negb (enabled l) || negb (db l)); simpl; [tauto|].
  intros Hin. apply scanRows_In in Hin as (r & _ & Hr).
  unfold scanRow in Hr. destruct (estimated_cost r); [|discriminate].
  injection Hr as <-. split; reflexivity.
Qed.

(** C6. On an enabled ledger, of two [LogResponse] calls whose entries
    carry the same request id (the empty one included), the second
    returns an error and leaves the table exactly as the first left
    it; the first, when no row with that id was stored before it,
    inserts its row without error. *)
Theorem LogResponse_same_id_twice
    (l : RequestLogger) (e1 e2 : LogEntry) (s : Store) :
  enabled l = true -> db l = true ->
  RequestID e1 = RequestID e2 ->
  (hasID s (RequestID e1) = false ->
   LogResponse l e1 s = ((s ++ [rowOf e1])%list, None)) /\
  (exists msg,
     LogResponse l e2 (fst (LogResponse l e1 s))
     = (fst (LogResponse l e1 s), Some msg)).
Proof.
  intros He Hd Hid. unfold LogResponse, Exec_insert.
  rewrite He, Hd. simpl negb. cbv beta iota. simpl orb.
  rewrite !id_rowOf, <- Hid.
  destruct (hasID s (RequestID e1)) eqn:Hs; cbn [fst].
  - split; [discriminate|]. rewrite Hs. eexists. reflexivity.
  - split; [reflexivity|].
    rewrite hasID_app, hasID_rowOf, orb_true_r. eexists. reflexivity.
Qed.


End Ledger.

(** ** Trimming a line *)

Lemma rev_append_app (s acc : string) :
  strings.rev_append s acc = strings.rev s ++ acc.
Proof.
  unfold strings.rev. revert acc.
  induction s as [|c s IH]; intros acc; [reflexivity|].
  cbn [strings.rev_append]. rewrite IH, (IH (String c "")), string_app_assoc.
  reflexivity.
Qed.

Lemma rev_app (a b : string) : strings.rev (a ++ b) = strings.rev b ++ strings.rev a.
Proof.
  induction a as [|c a IH]; cbn [String.append].
  - rewrite string_app_nil_r. reflexivity.
  - unfold strings.rev at 1 3. cbn [strings.rev_append].
    rewrite !rev_append_app, IH, string_app_assoc. reflexivity.
Qed.

Lemma rev_rev (s : string) : strings.rev (strings.rev s) = s.
Proof.
  induction s as [|c s IH]; [reflexivity|].
  unfold strings.rev at 2. cbn [strings.rev_append].
  rewrite rev_append_app, rev_app, IH. reflexivity.
Qed.

Lemma TrimLeftSpace_visible (c : ascii) (s : string) :
  StreamSpec.visible c -> strings.TrimLeftSpace (String c s) = String c s.
Proof.
  intros [Hc Hs]. cbn [strings.TrimLeftSpace]. rewrite Hs.
  assert (strings.space2 c = fun _ => false) as H2.
  { unfold strings.space2. destruct (Nat.eqb_spec (nat_of_ascii c) 194); [lia|].
    reflexivity. }
  assert (strings.space3 c = fun _ _ => false) as H3.
  { unfold strings.space3.
    destruct (Nat.eqb_spec (nat_of_ascii c) 225); [lia|].
    destruct (Nat.eqb_spec (nat_of_ascii c) 226); [lia|].
    destruct (Nat.eqb_spec (nat_of_ascii c) 227); [lia|]. reflexivity. }
  destruct s as [|c2 [|c3 s]]; rewrite ?H2, ?H3; reflexivity.
Qed.

Lemma TrimLeftSpaceRev_visible (c : ascii) (s : string) :
  StreamSpec.visible c -> strings.TrimLeftSpaceRev (String c s) = String c s.
Proof.
  intros [Hc Hs]. cbn [strings.TrimLeftSpaceRev]. rewrite Hs.
  assert (forall c2, strings.space2 c2 c = false) as H2.
  { intros c2. unfold strings.space2.
    destruct (Nat.eqb_spec (nat_of_ascii c) 133); [lia|].
    destruct (Nat.eqb_spec (nat_of_ascii c) 160); [lia|].
    apply andb_false_r. }
  assert (forall c3 c2, strings.space3 c3 c2 c = false) as H3.
  { intros c3 c2. unfold strings.space3.
    destruct (Nat.eqb_spec (nat_of_ascii c) 128); [lia|].
    destruct (Nat.eqb_spec (nat_of_ascii c) 159); [lia|].
    destruct (Nat.eqb_spec (nat_of_ascii c) 168); [lia|].
    destruct (Nat.eqb_spec (nat_of_ascii c) 169); [lia|].
    destruct (Nat.eqb_spec (nat_of_ascii c) 175); [lia|].
    destruct (Nat.leb_spec 128 (nat_of_ascii c)); [lia|].
    rewrite !andb_false_r. reflexivity. }
  destruct s as [|c2 [|c3 s]]; rewrite ?H2, ?H3; reflexivity.
Qed.

(** A line that starts and ends with a visible character loses its
    line feed to [TrimSpace], and nothing else. *)
Lemma TrimSpace_clean_line (a z : ascii) (s : string) :
  StreamSpec.visible a -> StreamSpec.visible z ->
  strings.TrimSpace (String a (s ++ String z bufio.lf)) = String a (s ++ String z "").
Proof.
  intros Ha Hz. unfold strings.TrimSpace.
  rewrite (TrimLeftSpace_visible a _ Ha).
  unfold strings.TrimRightSpace.
  replace (String a (s ++ String z bufio.lf))
    with ((String a s ++ String z "") ++ bufio.lf)
    by (rewrite string_app_assoc; reflexivity).
  rewrite rev_app. change (strings.rev bufio.lf) with bufio.lf.
  rewrite rev_app. change (strings.rev (String z "")) with (String z "").
  unfold bufio.lf. cbn [String.append].
  change (strings.TrimLeftSpaceRev
            (String strings.newline (String z (strings.rev (String a s)))))
    with (strings.TrimLeftSpaceRev (String z (strings.rev (String a s)))).
  rewrite (TrimLeftSpaceRev_visible z _ Hz).
  change (String z (strings.rev (String a s)))
    with (String z "" ++ strings.rev (String a s)).
  rewrite rev_app, rev_rev. reflexivity.
Qed.

(** A line [data:] followed by a payload that ends with a visible
    character, and is not the sentinel, is a data line with that
    payload. *)
Lemma dataLine_clean (p : string) (z : ascii) :
  StreamSpec.visible z ->
  StreamSpec.noLineFeed (p ++ String z "") ->
  p ++ String z "" <> " [DONE]" ->
  StreamSpec.dataLine ("data:" ++ p ++ String z "") (p ++ String z "").
Proof.
  intros Hz Hn Hs.
  assert (strings.TrimSpace (("data:" ++ p ++ String z "") ++ bufio.lf)
          = "data:" ++ p ++ String z "") as Ht.
  { cbn [String.append]. rewrite string_app_assoc. cbn [String.append].
    apply (TrimSpace_clean_line "d" z ("ata:" ++ p)); [|exact Hz].
    split; [vm_compute; lia | reflexivity]. }
  unfold StreamSpec.dataLine. rewrite Ht.
  split; [exact Hn|]. split.
  - intros H. injection H as H. exact (Hs H).
  - split; [|unfold strings.TrimPrefix]; cbn; reflexivity.
Qed.

(** ** The stream decoder *)

Section Decoder.

Import llm StreamSpec.
Context {RT : Runtime}.

Lemma processLines_sentinel (l : string) (rest : list string) (st : Decoder) :
  sentinelLine l -> processLines ((l ++ bufio.lf) :: rest) st = st.
Proof.
  intros [_ Hs]. cbn [processLines]. rewrite Hs. reflexivity.
Qed.

Lemma processLines_malformed (l : string) (rest : list string) (st : Decoder) :
  malformedLine l ->
  processLines ((l ++ bufio.lf) :: rest) st = processLines rest (afterMalformed st).
Proof.
  intros (payload & (_ & Hns & Hp & Hpl) & Hj). cbn [processLines].
  apply String.eqb_neq in Hns. rewrite Hns, Hp, Hpl, Hj. reflexivity.
Qed.

Lemma processLines_content
    (l : string) (chunk : ResponseData) (f : string)
    (rest : list string) (st : Decoder) :
  contentLine l chunk f ->
  processLines ((l ++ bufio.lf) :: rest) st = processLines rest (afterContent st chunk f).
Proof.
  intros (payload & choice & others & (_ & Hns & Hp & Hpl) & Hj & Hc & Hf).
  cbn [processLines].
  apply String.eqb_neq in Hns. rewrite Hns, Hp, Hpl, Hj, Hc, Hf.
  unfold afterContent, hasLineBreak, usageAfter, idAfter.
  destruct ((counter st <? 2) && (strings.Count f strings.newline >? 0)); reflexivity.
Qed.

(** From the third forwarded fragment on, nothing is withheld. *)
Lemma forwarded_from_two (n : Z) (fs : list string) :
  2 <= n -> forwarded n fs = fs.
Proof.
  revert n. induction fs as [|f fs IH]; intros n Hn; simpl; [reflexivity|].
  destruct (Z.ltb_spec n 2); [lia|]. simpl. rewrite IH by lia. reflexivity.
Qed.

(** Fragments without a line break are all forwarded. *)
Lemma forwarded_no_breaks (n : Z) (fs : list string) :
  Forall (fun f => hasLineBreak f = false) fs -> forwarded n fs = fs.
Proof.
  intros H. revert n. induction H as [|f fs Hf _ IH]; intros n; simpl; [reflexivity|].
  rewrite Hf, andb_false_r, IH. reflexivity.
Qed.

Lemma sinkCalls_app (evs1 evs2 : list Event) :
  sinkCalls (evs1 ++ evs2)%list = (sinkCalls evs1 ++ sinkCalls evs2)%list.
Proof.
  induction evs1 as [|e evs1 IH]; [reflexivity|].
  destruct e; cbn [app sinkCalls]; rewrite IH; reflexivity.
Qed.

Lemma sinkTexts_map (acc : string) (fs : list string) :
  sinkCalls (map StreamCallback (sinkTexts acc fs)) = sinkTexts acc fs.
Proof.
  revert acc. induction fs as [|f fs IH]; intros acc; [reflexivity|].
  cbn [sinkTexts map sinkCalls]. rewrite IH. reflexivity.
Qed.

Lemma processLines_other (l : string) (rest : list string) (st : Decoder) :
  otherLine l -> processLines ((l ++ bufio.lf) :: rest) st = processLines rest st.
Proof.
  intros (_ & Hns & Hp). cbn [processLines].
  apply String.eqb_neq in Hns. rewrite Hns, Hp. reflexivity.
Qed.

Lemma processLines_choiceless
    (l : string) (chunk : ResponseData) (rest : list string) (st : Decoder) :
  choicelessLine l chunk ->
  processLines ((l ++ bufio.lf) :: rest) st
  = processLines rest
      (mkDecoder (counter st) (totalData st) (usageAfter st chunk) (idAfter st chunk)
                 (events st)).
Proof.
  intros (payload & (_ & Hns & Hp & Hpl) & Hj & Hc). cbn [processLines].
  apply String.eqb_neq in Hns. rewrite Hns, Hp, Hpl, Hj, Hc. reflexivity.
Qed.

(** A line without a fragment changes neither the counter, nor the
    text, nor what the sink has received. *)
Lemma processLines_silent (l : string) (st : Decoder) :
  silentLine l ->
  exists st1,
    (forall rest, processLines ((l ++ bufio.lf) :: rest) st = processLines rest st1) /\
    counter st1 = counter st /\
    totalData st1 = totalData st /\
    sinkCalls (events st1) = sinkCalls (events st).
Proof.
  intros [Ho | [Hm | [chunk Hc]]].
  - exists st. split; [|repeat split].
    intros rest. apply processLines_other, Ho.
  - exists (afterMalformed st). split; [|repeat split].
    + intros rest. apply processLines_malformed, Hm.
    + unfold afterMalformed. cbn [events]. rewrite sinkCalls_app.
      apply app_nil_r.
  - exists (mkDecoder (counter st) (totalData st) (usageAfter st chunk)
                      (idAfter st chunk) (events st)).
    split; [|repeat split].
    intros rest. apply processLines_choiceless, Hc.
Qed.

(** A run of lines before the sentinel: what the decoder holds after
    it. *)
Lemma processLines_fragments
    (ls fs : list string) (rest : list string) (st : Decoder) :
  Fragments ls fs ->
  exists st',
    processLines (map (fun l => (l ++ bufio.lf)%string) ls ++ rest)%list st
      = processLines rest st' /\
    counter st' = counter st + Z.of_nat (length (forwarded (counter st) fs)) /\
    totalData st' = totalData st ++ joined (forwarded (counter st) fs) /\
    sinkCalls (events st')
    = (sinkCalls (events st) ++ sinkTexts (totalData st) (forwarded (counter st) fs))%list.
Proof.
  intros H. revert st.
  induction H as [|l chunk f ls fs Hl _ IH|l ls fs Hl _ IH]; intros st.
  - exists st. cbn. rewrite string_app_nil_r, app_nil_r.
    repeat split; lia.
  - cbn [map app]. rewrite (processLines_content _ _ _ _ _ Hl).
    destruct (IH (afterContent st chunk f)) as (st' & Hrun & Hc & Ht & He).
    exists st'. split; [exact Hrun|].
    rewrite Hc, Ht, He. unfold afterContent. cbn [forwarded].
    destruct ((counter st <? 2) && hasLineBreak f); cbn [counter totalData events].
    + repeat split.
    + cbn [length joined sinkTexts].
      rewrite string_app_assoc, sinkCalls_app, <- app_assoc. cbn [sinkCalls app].
      repeat split. lia.
  - cbn [map app].
    destruct (processLines_silent l st Hl) as (st1 & Hstep & Hc1 & Ht1 & He1).
    rewrite Hstep.
    destruct (IH st1) as (st' & Hrun & Hc & Ht & He).
    exists st'. rewrite Hrun, Hc, Ht, He, Hc1, Ht1, He1. repeat split.
Qed.

Lemma noLineFeed_lines (ls fs : list string) (d : string) (more : list string) :
  Fragments ls fs ->
  sentinelLine d -> Forall noLineFeed more ->
  Forall noLineFeed (ls ++ d :: more)%list.
Proof.
  intros Hls [Hd _] Hmore. apply Forall_app. split.
  - induction Hls as [|l chunk f ls fs Hl _ IH|l ls fs Hl _ IH];
      constructor; try exact IH.
    + destruct Hl as (payload & choice & others & (Hn & _) & _). exact Hn.
    + destruct Hl as [(Hn & _) | [(payload & (Hn & _) & _)
                                 | (chunk & payload & (Hn & _) & _)]]; exact Hn.
  - constructor; assumption.
Qed.

(** [processStream] never returns an error. *)
Lemma processStream_no_error (resp : HTTPResponse) :
  resultErr (processStream resp) = None.
Proof. reflexivity. Qed.

(** C2, as the code has it. In one decode session a content fragment
    is withheld exactly when fewer than two fragments have been
    forwarded so far and it contains a line break; a withheld
    fragment is neither passed to the sink nor appended to the
    accumulated text, and the sink receives the text accumulated so
    far with every forwarded fragment.  In particular, for three
    content fragments of which the first two contain a line break
    and the third does not, the sink is invoked exactly once and the
    final text is the third fragment alone. *)
Theorem processStream_suppression
    (ls fs : list string) (d : string) (more : list string)
    (code : Z) (status : string) :
  Fragments ls fs ->
  sentinelLine d ->
  Forall noLineFeed more ->
  let r := processStream (mkHTTPResponse code status (bufio.stream (ls ++ d :: more)%list)) in
  resultText r = joined (forwarded 0 fs) /\
  sinkCalls (resultEvents r) = sinkTexts "" (forwarded 0 fs) /\
  resultErr r = None /\
  (forall f1 f2 f3,
     fs = [f1; f2; f3] ->
     hasLineBreak f1 = true -> hasLineBreak f2 = true -> hasLineBreak f3 = false ->
     resultText r = f3 /\ sinkCalls (resultEvents r) = [f3]).
Proof.
  intros Hls Hd Hmore r.
  assert (resultText r = joined (forwarded 0 fs) /\
          sinkCalls (resultEvents r) = sinkTexts "" (forwarded 0 fs))
    as [Ht He].
  { subst r. unfold processStream. cbn [RespBody].
    rewrite readLines_stream by (eapply noLineFeed_lines; eassumption).
    rewrite map_app. cbn [map].
    destruct (processLines_fragments ls fs
                ((d ++ bufio.lf) :: map (fun l => (l ++ bufio.lf)%string) more)
                initDecoder Hls) as (st' & Hrun & _ & Ht & He).
    rewrite Hrun, (processLines_sentinel _ _ _ Hd).
    unfold resultText, resultEvents. cbn [fst snd].
    rewrite Ht, He. split; reflexivity. }
  split; [exact Ht|]. split; [exact He|]. split; [reflexivity|].
  intros f1 f2 f3 -> H1 H2 H3. rewrite Ht, He. cbn [forwarded].
  rewrite H1, H2, H3. cbn. rewrite string_app_nil_r. split; reflexivity.
Qed.

(** C9, as the code has it. For every stream made of one prefixed
    line of valid content whose fragment has no line break, one
    prefixed line whose remainder is not valid JSON, in either
    order, and the terminal sentinel line, the decoder returns that
    fragment and no error: the malformed line is skipped. *)
Theorem processStream_skips_malformed_line
    (v m d : string) (chunk : ResponseData) (f : string) (more : list string)
    (code : Z) (status : string) :
  contentLine v chunk f -> hasLineBreak f = false ->
  malformedLine m -> sentinelLine d -> Forall noLineFeed more ->
  let r1 := processStream (mkHTTPResponse code status (bufio.stream (v :: m :: d :: more))) in
  let r2 := processStream (mkHTTPResponse code status (bufio.stream (m :: v :: d :: more))) in
  (resultText r1 = f /\ resultErr r1 = None) /\
  (resultText r2 = f /\ resultErr r2 = None).
Proof.
  intros Hv Hf Hm Hd Hmore r1 r2.
  assert (noLineFeed v) as Nv
    by (destruct Hv as (payload & choice & others & (Hn & _) & _); exact Hn).
  assert (noLineFeed m) as Nm by (destruct Hm as (payload & (Hn & _) & _); exact Hn).
  assert (noLineFeed d) as Nd by (destruct Hd as [Hn _]; exact Hn).
  subst r1 r2. unfold processStream. cbn [RespBody].
  rewrite !readLines_stream by (repeat constructor; assumption).
  cbn [map].
  rewrite (processLines_content _ _ _ _ _ Hv), (processLines_malformed _ _ _ Hm),
          (processLines_sentinel _ _ _ Hd).
  rewrite (processLines_malformed _ _ _ Hm), (processLines_content _ _ _ _ _ Hv),
          (processLines_sentinel _ _ _ Hd).
  unfold afterContent, afterMalformed, resultText, resultErr.
  cbn [counter totalData initDecoder fst snd]. rewrite Hf.
  repeat split.
Qed.

End Decoder.

(** ** The client *)

Section Client.

Import logger llm StreamSpec.
Context {RT : Runtime}.


Lemma callStream_success
    (c : LLMClient) (env : Env) (payload : Payload)
    (m : Message) (u : Usage) (rid : string) (evs : list Event) :
  callStream c env payload = (m, u, rid, None, evs) -> Role m = "assistant".
Proof.
  unfold callStream.
  destruct (createRequest c payload) as [req|e]; [|discriminate].
  destruct (Do env req) as [resp|e]; [|discriminate].
  destruct (negb (StatusCode resp =? 200)); [discriminate|].
  destruct (processStream resp) as [[[[content u'] rid'] e'] evs'].
  intros H. injection H as <- _ _ _ _. reflexivity.
Qed.

(** What [Query] leaves in [c.messages] when it succeeds: the prefix
    it had and the answer.  The user message was appended to the
    local slice only. *)
Lemma Query_success_messages (c : LLMClient) (env : Env) (s : Store) (q : string) :
  err (Query c env s q) = None ->
  messages (client (Query c env s q))
  = (messages c ++ [mkMessage "assistant" (answer (Query c env s q))])%list.
Proof.
  unfold Query.
  destruct (callStream c env _) as [[[[m u] rid] e] evs] eqn:Hcall.
  destruct e as [e|].
  - destruct (logBestEffort _ _ _). discriminate.
  - apply callStream_success in Hcall.
    destruct (logBestEffort _ _ _). cbn. intros _.
    destruct m as [role content]. cbn in Hcall. subst role. reflexivity.
Qed.

Lemma logBestEffort_insert
    (c : LLMClient) (l : RequestLogger) (entry : LogEntry) (s : Store) :
  reqLogger c = Some l -> enabled l = true -> db l = true ->
  hasID s (RequestID entry) = false ->
  logBestEffort c entry s = ((s ++ [rowOf entry])%list, []).
Proof.
  intros Hl He Hd Hfresh. unfold logBestEffort, LogResponse, Exec_insert.
  rewrite Hl, He, Hd, id_rowOf, Hfresh. reflexivity.
Qed.




End Client.

(** ** The properties at concrete inputs *)

Section Examples.

Import logger llm StreamSpec Samples.
#[local] Existing Instance sampleRuntime.

(** The cases of [TestCalculateCost].  Four hold with every operation
    rounded on its own; the case of "gpt-4.1-mini" expects the constant
    [0.0015 + 0.0030], which is one unit in the last place below the
    sum of the two rounded products. *)
Example TestCalculateCost_cases :
  CalculateCost "gpt-4.1" 1000 500 = 0.0075%float /\
  CalculateCost "gpt-4o" 2000 1000 = 0.015%float /\
  CalculateCost "unknown-model" 1000 500 = 0%float /\
  CalculateCost "gpt-3.5-turbo" 100000 50000 = 0.125%float /\
  CalculateCost "gpt-4.1-mini" 10000 5000 = 0.0045000000000000005%float /\
  (CalculateCost "gpt-4.1-mini" 10000 5000 =? 0.0045)%float = false.
Proof. repeat split; reflexivity. Qed.

Lemma CalculateCost_spec_witness :
  CalculateCost "gpt-4.1-mini" 10000 5000
  = (float64 10000 / 1000000 * 0.15 + float64 5000 / 1000000 * 0.60)%float /\
  CalculateCost "unknown-model" 1000 500 = 0%float.
Proof.
  split.
  - apply (proj1 (CalculateCost_spec "gpt-4.1-mini" 10000 5000)
                 (mkModelPricing 0.15 0.60)).
    vm_compute. reflexivity.
  - apply (proj2 (CalculateCost_spec "unknown-model" 1000 500)).
    vm_compute. reflexivity.
Defined.

Lemma disabled_logger_is_noop_witness :
  exists l,
    NewRequestLogger os_disabled = (Some l, None) /\
    (forall entry s, LogResponse l entry s = (s, None)) /\
    (forall limit s, GetRecentResponses l limit s = ([], None)).
Proof.
  apply (disabled_logger_is_noop os_disabled). vm_compute. discriminate.
Defined.

Lemma GetRecentResponses_drops_error_and_total_witness :
  exists e,
    fst (GetRecentResponses enabledLogger 1 [rowOf sampleEntry]) = [e] /\
    Error e = "" /\ LTotalTokens e = 0.
Proof.
  eexists. split; [vm_compute; reflexivity|].
  apply (GetRecentResponses_drops_error_and_total enabledLogger 1 [rowOf sampleEntry]).
  vm_compute. left. reflexivity.
Defined.

Lemma LogResponse_same_id_twice_witness :
  RequestID failed1 = "" /\
  LogResponse enabledLogger failed1 [] = ([rowOf failed1], None) /\
  exists msg,
    LogResponse enabledLogger failed2 [rowOf failed1] = ([rowOf failed1], Some msg).
Proof.
  split; [reflexivity|].
  destruct (LogResponse_same_id_twice enabledLogger failed1 failed2 []
              eq_refl eq_refl eq_refl) as [Hfirst Hsecond].
  split; [exact (Hfirst eq_refl) | exact Hsecond].
Defined.



(** C1 on the code. A successful query leaves in the conversation
    prefix only the answer: the question is not in it, and the
    payload of the next query carries the earlier answer without the
    earlier question. *)
Theorem Query_keeps_answer_drops_question :
  (err (Query c0 env_answer [] question) = None /\
   answer (Query c0 env_answer [] question) = "ls -la") /\
  messages c0 = [mkMessage "system" "You are a terminal assistant."] /\
  messages (client (Query c0 env_answer [] question))
  = [mkMessage "system" "You are a terminal assistant.";
     mkMessage "assistant" "ls -la"] /\
  messages (client (Query c0 env_answer [] question))
  <> [mkMessage "system" "You are a terminal assistant.";
      mkMessage "user" question;
      mkMessage "assistant" "ls -la"] /\
  Messages (queryPayload (client (Query c0 env_answer [] question))
              (messages (client (Query c0 env_answer [] question))
               ++ [mkMessage "user" "and the hidden ones"])%list)
  = [mkMessage "system" "You are a terminal assistant.";
     mkMessage "assistant" "ls -la";
     mkMessage "user" "and the hidden ones"].
Proof.
  split; [split; vm_compute; reflexivity|].
  split; [reflexivity|].
  split; [vm_compute; reflexivity|].
  split; [vm_compute; discriminate|].
  vm_compute. reflexivity.
Qed.

Ltac solve_dataLine :=
  unfold dataLine, noLineFeed;
  repeat split; try (vm_compute; (reflexivity || discriminate)).

Lemma line_lf_content :
  contentLine ("data:" ++ chunk_lf) (contentChunk "chatcmpl-abc123" lf) lf.
Proof.
  exists chunk_lf, (mkChoice (mkDelta lf) 0 ""), [].
  split; [solve_dataLine|]. repeat split.
Qed.

Lemma line_ls_content :
  contentLine ("data:" ++ chunk_ls) (contentChunk "chatcmpl-abc123" "ls -la") "ls -la".
Proof.
  exists chunk_ls, (mkChoice (mkDelta "ls -la") 0 ""), [].
  split; [solve_dataLine|]. repeat split.
Qed.

Lemma line_malformed : malformedLine ("data:" ++ chunk_malformed).
Proof. exists chunk_malformed. split; [solve_dataLine|]. reflexivity. Qed.

Lemma line_sentinel : sentinelLine sentinel.
Proof. split; vm_compute; reflexivity. Qed.

Lemma line_blank : silentLine "".
Proof. left. repeat split; vm_compute; (reflexivity || discriminate). Qed.

(** Three fragments, the events separated by blank lines. *)
Lemma processStream_suppression_witness :
  resultText (processStream (ok200 body_suppressed)) = "ls -la" /\
  sinkCalls (resultEvents (processStream (ok200 body_suppressed))) = ["ls -la"].
Proof.
  assert (Fragments
            ["data:" ++ chunk_lf; ""; "data:" ++ chunk_lf; ""; "data:" ++ chunk_ls; ""]
            [lf; lf; "ls -la"]) as Hlines.
  { eapply Fragments_content; [exact line_lf_content|].
    apply Fragments_silent; [exact line_blank|].
    eapply Fragments_content; [exact line_lf_content|].
    apply Fragments_silent; [exact line_blank|].
    eapply Fragments_content; [exact line_ls_content|].
    apply Fragments_silent; [exact line_blank|].
    constructor. }
  assert (Forall noLineFeed [""]) as Hmore by (repeat constructor).
  pose proof (processStream_suppression _ _ sentinel [""] 200 "200 OK"
                Hlines line_sentinel Hmore) as H.
  cbv zeta in H. destruct H as (_ & _ & _ & Hthree).
  exact (Hthree lf lf "ls -la" eq_refl eq_refl eq_refl eq_refl).
Defined.

(** C2 fails on the accumulated text: of the fragments "\n", "\n"
    and "ls -la" the decoder returns "ls -la", not their
    concatenation; and a third fragment with a line break is
    withheld like the first two. *)
Lemma withheld_fragments_are_not_accumulated :
  (resultText (processStream (ok200 body_suppressed)) = "ls -la" /\
   resultText (processStream (ok200 body_suppressed)) <> lf ++ lf ++ "ls -la" /\
   sinkCalls (resultEvents (processStream (ok200 body_suppressed))) = ["ls -la"]) /\
  (resultText (processStream (ok200 body_three_breaks)) = "" /\
   sinkCalls (resultEvents (processStream (ok200 body_three_breaks))) = []).
Proof.
  repeat split; vm_compute; (reflexivity || discriminate).
Qed.

Lemma processStream_skips_malformed_line_witness :
  (resultText (processStream (ok200 body_valid_then_malformed)) = "ls -la" /\
   resultErr (processStream (ok200 body_valid_then_malformed)) = None) /\
  (resultText (processStream
                 (ok200 (stream ["data:" ++ chunk_malformed; "data:" ++ chunk_ls; sentinel])))
   = "ls -la" /\
   resultErr (processStream
                (ok200 (stream ["data:" ++ chunk_malformed; "data:" ++ chunk_ls; sentinel])))
   = None).
Proof.
  apply (processStream_skips_malformed_line
           ("data:" ++ chunk_ls) ("data:" ++ chunk_malformed) sentinel
           (contentChunk "chatcmpl-abc123" "ls -la") "ls -la" [] 200 "200 OK").
  - exact line_ls_content.
  - reflexivity.
  - exact line_malformed.
  - exact line_sentinel.
  - constructor.
Defined.

(** C9 fails when the content of the valid line contains a line
    break: the line decodes to the fragment "\n", and the decoder
    returns the empty text. *)
Lemma lone_fragment_with_line_break_is_dropped :
  contentLine ("data:" ++ chunk_lf) (contentChunk "chatcmpl-abc123" lf) lf /\
  malformedLine ("data:" ++ chunk_malformed) /\
  sentinelLine sentinel /\
  body_break_then_malformed
  = stream ["data:" ++ chunk_lf; "data:" ++ chunk_malformed; sentinel] /\
  resultText (processStream (ok200 body_break_then_malformed)) = "" /\
  resultText (processStream (ok200 body_break_then_malformed)) <> lf /\
  resultErr (processStream (ok200 body_break_then_malformed)) = None.
Proof.
  split; [exact line_lf_content|].
  split; [exact line_malformed|].
  split; [exact line_sentinel|].
  repeat split; vm_compute; (reflexivity || discriminate).
Qed.





(** Two failed queries in a row: both entries carry the empty id, so
    the insert of the second is refused; the table keeps the row of
    the first and the client prints the warning. *)
Example second_failed_query_is_not_logged :
  store (Query c0 env_500 (store (Query c0 env_500 [] "first")) "second")
  = store (Query c0 env_500 [] "first") /\
  map prompt (store (Query c0 env_500 [] "first")) = ["first"] /\
  trace (Query c0 env_500 (store (Query c0 env_500 [] "first")) "second")
  = [LogWarning "UNIQUE constraint failed: responses.id"].
Proof. repeat split; vm_compute; reflexivity. Qed.

End Examples.

(* ===================================================================== *)
(** * Further properties of the decoder *)
(* ===================================================================== *)

Section MoreDecoder.

Import llm StreamSpec MoreSpec.
Context {RT : Runtime}.

Lemma processLines_cons (raw : string) (rest : list string) (st : Decoder) :
  processLines (raw :: rest) st
  = match lineStep raw st with
    | None => st
    | Some st' => processLines rest st'
    end.
Proof.
  cbn [processLines]. unfold lineStep.
  destruct (strings.TrimSpace raw =? "data: [DONE]")%string; [reflexivity|].
  destruct (strings.HasPrefix (strings.TrimSpace raw) "data:"); [|reflexivity].
  destruct (json_Unmarshal _) as [chunk|]; [|reflexivity].
  destruct (Choices chunk) as [|choice others]; [reflexivity|].
  unfold afterContent, hasLineBreak, usageAfter, idAfter.
  destruct ((counter st <? 2) && _); reflexivity.
Qed.

(** What every turn of the loop keeps, the whole loop keeps. *)
Lemma processLines_invariant (P : Decoder -> Prop) :
  (forall raw st st', P st -> lineStep raw st = Some st' -> P st') ->
  forall ls st, P st -> P (processLines ls st).
Proof.
  intros Hstep ls. induction ls as [|raw ls IH]; intros st Hst; [exact Hst|].
  rewrite processLines_cons. destruct (lineStep raw st) as [st'|] eqn:E.
  - apply IH. exact (Hstep raw st st' Hst E).
  - exact Hst.
Qed.

Lemma readLines_aux_no_line_feed (tail cur : string) :
  noLineFeed tail -> bufio.readLines_aux tail strings.newline cur = [].
Proof.
  unfold noLineFeed. revert cur.
  induction tail as [|c tail IH]; intros cur H; [reflexivity|].
  cbn [strings.Count] in H. pose proof (Count_nonneg tail strings.newline).
  cbn [bufio.readLines_aux].
  destruct (Ascii.eqb c strings.newline); [lia|]. apply IH. lia.
Qed.

Lemma readLines_aux_tail (body tail cur : string) :
  noLineFeed tail ->
  bufio.readLines_aux (body ++ tail) strings.newline cur
  = bufio.readLines_aux body strings.newline cur.
Proof.
  intros Ht. revert cur.
  induction body as [|c body IH]; intros cur.
  - cbn. apply readLines_aux_no_line_feed, Ht.
  - cbn [String.append bufio.readLines_aux].
    destruct (Ascii.eqb c strings.newline); rewrite IH; reflexivity.
Qed.

(** What follows the last line feed of the body is never decoded:
    [ReadString] fails on it and the loop is left, also when those
    bytes are a whole chunk or the sentinel. *)
Theorem processStream_drops_unterminated_tail
    (code : Z) (status body tail : string) :
  noLineFeed tail ->
  processStream (mkHTTPResponse code status (body ++ tail))
  = processStream (mkHTTPResponse code status body).
Proof.
  intros Ht. unfold processStream, bufio.readLines. cbn [RespBody].
  rewrite readLines_aux_tail by exact Ht. reflexivity.
Qed.




(** The usage [processStream] returns is all zero or has a positive
    total: a chunk whose total is not positive never replaces the
    usage, whatever its other counts are. *)
Theorem processStream_usage_zero_or_positive (resp : HTTPResponse) :
  resultUsage (processStream resp) = emptyUsage \/
  TotalTokens (resultUsage (processStream resp)) > 0.
Proof.
  unfold processStream, resultUsage. cbn [fst snd].
  apply (processLines_invariant
           (fun st => usage st = emptyUsage \/ TotalTokens (usage st) > 0));
    [|left; reflexivity].
  intros raw st st' Hst. unfold lineStep.
  destruct (_ =? _)%string; [discriminate|].
  destruct (strings.HasPrefix _ _); [|intros [= <-]; exact Hst].
  destruct (json_Unmarshal _) as [chunk|]; [|intros [= <-]; exact Hst].
  assert (usageAfter st chunk = emptyUsage \/ TotalTokens (usageAfter st chunk) > 0) as Hu.
  { unfold usageAfter. destruct (Z.gtb_spec (TotalTokens (RUsage chunk)) 0).
    - right. cbn. lia.
    - exact Hst. }
  destruct (Choices chunk) as [|choice others]; [intros [= <-]; exact Hu|].
  unfold afterContent. destruct (_ && _); intros [= <-]; exact Hu.
Qed.

Lemma last_snoc (l : list string) (x d : string) : List.last (l ++ [x]) d = x.
Proof.
  induction l as [|a l IH]; [reflexivity|].
  cbn [app]. destruct l; [reflexivity|exact IH].
Qed.

(** The text [processStream] returns is the text of the last call of
    the sink, and the empty text when the sink was not called. *)
Theorem processStream_text_is_last_sink_text (resp : HTTPResponse) :
  resultText (processStream resp)
  = List.last (sinkCalls (resultEvents (processStream resp))) "".
Proof.
  unfold processStream, resultText, resultEvents. cbn [fst snd].
  apply (processLines_invariant
           (fun st => totalData st = List.last (sinkCalls (events st)) ""));
    [|reflexivity].
  intros raw st st' Hst. unfold lineStep.
  destruct (_ =? _)%string; [discriminate|].
  destruct (strings.HasPrefix _ _); [|intros [= <-]; exact Hst].
  destruct (json_Unmarshal _) as [chunk|].
  - destruct (Choices chunk) as [|choice others]; [intros [= <-]; exact Hst|].
    unfold afterContent. destruct (_ && _); intros [= <-]; [exact Hst|].
    cbn [totalData events]. rewrite sinkCalls_app. cbn [sinkCalls].
    rewrite last_snoc. reflexivity.
  - intros [= <-]. unfold afterMalformed. cbn [totalData events].
    rewrite sinkCalls_app. cbn [sinkCalls]. rewrite app_nil_r. exact Hst.
Qed.

Lemma HasPrefix_app (a f : string) : strings.HasPrefix (a ++ f) a = true.
Proof.
  induction a as [|c a IH]; [reflexivity|].
  cbn. rewrite Ascii.eqb_refl. exact IH.
Qed.

Lemma growing_snoc (l : list string) (t : string) :
  growing l -> strings.HasPrefix t (List.last l "") = true -> growing (l ++ [t]).
Proof.
  induction l as [|a l IH]; intros Hg Hp; [cbn; auto|].
  destruct Hg as [Ha Hg]. cbn [app growing]. destruct l as [|b l].
  - cbn in *. auto.
  - split; [exact Ha|]. apply IH; [exact Hg|exact Hp].
Qed.

(** The sink receives texts that grow: each one starts with the text
    of the call before it. *)
Theorem processStream_sink_texts_grow (resp : HTTPResponse) :
  growing (sinkCalls (resultEvents (processStream resp))).
Proof.
  unfold processStream, resultEvents. cbn [snd].
  apply (processLines_invariant
           (fun st => growing (sinkCalls (events st)) /\
                      totalData st = List.last (sinkCalls (events st)) ""));
    [|split; [exact I|reflexivity]].
  intros raw st st' [Hg Hl]. unfold lineStep.
  destruct (_ =? _)%string; [discriminate|].
  destruct (strings.HasPrefix _ _); [|intros [= <-]; split; assumption].
  destruct (json_Unmarshal _) as [chunk|].
  - destruct (Choices chunk) as [|choice others]; [intros [= <-]; split; assumption|].
    unfold afterContent. destruct (_ && _); intros [= <-]; [split; assumption|].
    cbn [totalData events]. rewrite sinkCalls_app. cbn [sinkCalls].
    rewrite last_snoc. split; [|reflexivity].
    apply growing_snoc; [exact Hg|]. rewrite <- Hl. apply HasPrefix_app.
  - intros [= <-]. unfold afterMalformed. cbn [totalData events].
    rewrite sinkCalls_app. cbn [sinkCalls]. rewrite app_nil_r. split; assumption.
Qed.

Lemma lineStep_chunk (l : string) (chunk : ResponseData) (st : Decoder) :
  chunkLine l chunk ->
  exists st',
    lineStep (l ++ bufio.lf) st = Some st' /\
    requestID st' = idAfter st chunk /\
    usage st' = usageAfter st chunk.
Proof.
  intros (payload & (_ & Hns & Hp & Hpl) & Hj). unfold lineStep.
  apply String.eqb_neq in Hns. rewrite Hns, Hp, Hpl, Hj.
  destruct (Choices chunk) as [|choice others].
  - eexists. repeat split.
  - unfold afterContent. destruct (_ && _); eexists; repeat split.
Qed.

Lemma lineStep_notSentinel (l : string) (st : Decoder) :
  notSentinel l -> exists st', lineStep (l ++ bufio.lf) st = Some st'.
Proof.
  intros [_ Hns]. unfold lineStep. apply String.eqb_neq in Hns. rewrite Hns.
  destruct (strings.HasPrefix _ _); [|eauto].
  destruct (json_Unmarshal _) as [chunk|]; [|eauto].
  destruct (Choices chunk); eauto.
Qed.

Lemma idlessLine_step (l : string) (st : Decoder) :
  idlessLine l ->
  exists st', lineStep (l ++ bufio.lf) st = Some st' /\ requestID st' = requestID st.
Proof.
  intros [(_ & Hns & Hp) | [(payload & (_ & Hns & Hp & Hpl) & Hj) | (chunk & Hc & Hid)]].
  - unfold lineStep. apply String.eqb_neq in Hns. rewrite Hns, Hp. eauto.
  - unfold lineStep. apply String.eqb_neq in Hns. rewrite Hns, Hp, Hpl, Hj. eauto.
  - destruct (lineStep_chunk l chunk st Hc) as (st' & Hs & Hi & _).
    exists st'. split; [exact Hs|]. rewrite Hi. unfold idAfter. rewrite Hid.
    cbn. rewrite andb_false_r. reflexivity.
Qed.

Lemma idlessLine_noLineFeed (l : string) : idlessLine l -> noLineFeed l.
Proof.
  intros [(Hn & _) | [(payload & (Hn & _) & _) | (chunk & (payload & (Hn & _) & _) & _)]];
    exact Hn.
Qed.

Lemma processLines_requestID_kept (ls : list string) (st : Decoder) :
  requestID st <> "" -> requestID (processLines ls st) = requestID st.
Proof.
  intros Hne.
  apply (processLines_invariant (fun st' => requestID st' = requestID st));
    [|reflexivity].
  intros raw st1 st2 H1. unfold lineStep.
  destruct (_ =? _)%string; [discriminate|].
  destruct (strings.HasPrefix _ _); [|intros [= <-]; exact H1].
  destruct (json_Unmarshal _) as [chunk|]; [|intros [= <-]; exact H1].
  assert (idAfter st1 chunk = requestID st) as Hid.
  { unfold idAfter. rewrite H1. apply String.eqb_neq in Hne. rewrite Hne. reflexivity. }
  destruct (Choices chunk) as [|choice others]; [intros [= <-]; exact Hid|].
  unfold afterContent. destruct (_ && _); intros [= <-]; exact Hid.
Qed.

(** The request id [processStream] returns is the id of the first
    chunk that has a non-empty one; no later line changes it, be it a
    chunk with another id. *)
Theorem processStream_requestID_is_first
    (pre : list string) (l : string) (chunk : ResponseData) (post : list string)
    (code : Z) (status : string) :
  Forall idlessLine pre ->
  chunkLine l chunk -> ID chunk <> "" ->
  Forall noLineFeed post ->
  resultID (processStream (mkHTTPResponse code status (bufio.stream (pre ++ l :: post))))
  = ID chunk.
Proof.
  intros Hpre Hl Hid Hpost.
  assert (noLineFeed l) as Nl by (destruct Hl as (payload & (Hn & _) & _); exact Hn).
  unfold processStream, resultID. cbn [fst snd RespBody].
  rewrite readLines_stream.
  2:{ apply Forall_app. split; [|constructor; assumption].
      eapply List.Forall_impl; [exact idlessLine_noLineFeed | exact Hpre]. }
  rewrite map_app. cbn [map].
  assert (forall rest st, requestID st = "" ->
            exists st', processLines (map (fun l => (l ++ bufio.lf)%string) pre ++ rest)%list st
                        = processLines rest st' /\ requestID st' = "") as Hrun.
  { clear -Hpre. induction Hpre as [|p pre Hp _ IH]; intros rest st Hst.
    - exists st. split; [reflexivity|exact Hst].
    - cbn [map app]. rewrite processLines_cons.
      destruct (idlessLine_step p st Hp) as (st1 & -> & H1).
      apply IH. rewrite H1. exact Hst. }
  destruct (Hrun ((l ++ bufio.lf)%string :: map (fun l => (l ++ bufio.lf)%string) post)
                 initDecoder eq_refl) as (st' & -> & Hst').
  rewrite processLines_cons.
  destruct (lineStep_chunk l chunk st' Hl) as (st2 & -> & H2 & _).
  assert (requestID st2 = ID chunk) as Hset.
  { rewrite H2. unfold idAfter. rewrite Hst'. apply String.eqb_neq in Hid.
    rewrite Hid. reflexivity. }
  rewrite processLines_requestID_kept; [exact Hset|].
  rewrite Hset. exact Hid.
Qed.

Lemma usagelessLine_step (l : string) (st st' : Decoder) :
  usagelessLine l -> lineStep (l ++ bufio.lf) st = Some st' -> usage st' = usage st.
Proof.
  intros [Hn Hu]. unfold lineStep.
  destruct (String.eqb_spec (strings.TrimSpace (l ++ bufio.lf)) "data: [DONE]") as [|Hns];
    [discriminate|].
  destruct (strings.HasPrefix _ _) eqn:Hp; [|intros [= <-]; reflexivity].
  destruct (json_Unmarshal _) as [chunk|] eqn:Hj; [|intros [= <-]; reflexivity].
  assert (usageAfter st chunk = usage st) as Hk.
  { unfold usageAfter.
    assert (TotalTokens (RUsage chunk) <= 0) as Hle.
    { apply Hu. eexists. split; [|exact Hj]. repeat split; assumption. }
    destruct (Z.gtb_spec (TotalTokens (RUsage chunk)) 0); [lia|reflexivity]. }
  destruct (Choices chunk) as [|choice others]; [intros [= <-]; exact Hk|].
  unfold afterContent. destruct (_ && _); intros [= <-]; exact Hk.
Qed.

(** The usage [processStream] returns is the usage of the last chunk
    with a positive total that comes before the sentinel: it replaces
    what earlier chunks reported, and later lines without such a total
    leave it. *)
Theorem processStream_usage_is_last_positive
    (pre : list string) (l : string) (chunk : ResponseData) (post : list string)
    (code : Z) (status : string) :
  Forall notSentinel pre ->
  chunkLine l chunk -> TotalTokens (RUsage chunk) > 0 ->
  Forall usagelessLine post ->
  resultUsage (processStream (mkHTTPResponse code status (bufio.stream (pre ++ l :: post))))
  = RUsage chunk.
Proof.
  intros Hpre Hl Hpos Hpost.
  assert (noLineFeed l) as Nl by (destruct Hl as (payload & (Hn & _) & _); exact Hn).
  unfold processStream, resultUsage. cbn [fst snd RespBody].
  rewrite readLines_stream.
  2:{ apply Forall_app. split.
      - eapply List.Forall_impl; [|exact Hpre]. intros a [Ha _]. exact Ha.
      - constructor; [exact Nl|].
        eapply List.Forall_impl; [|exact Hpost]. intros a [Ha _]. exact Ha. }
  rewrite map_app. cbn [map].
  assert (forall rest st,
            exists st', processLines (map (fun l => (l ++ bufio.lf)%string) pre ++ rest)%list st
                        = processLines rest st') as Hrun.
  { clear -Hpre. induction Hpre as [|p pre Hp _ IH]; intros rest st.
    - exists st. reflexivity.
    - cbn [map app]. rewrite processLines_cons.
      destruct (lineStep_notSentinel p st Hp) as (st1 & ->). apply IH. }
  destruct (Hrun ((l ++ bufio.lf)%string :: map (fun l => (l ++ bufio.lf)%string) post)
                 initDecoder) as (st' & ->).
  rewrite processLines_cons.
  destruct (lineStep_chunk l chunk st' Hl) as (st2 & -> & _ & H2).
  assert (usage st2 = RUsage chunk) as Hset.
  { rewrite H2. unfold usageAfter.
    destruct (Z.gtb_spec (TotalTokens (RUsage chunk)) 0); [|lia].
    destruct (RUsage chunk). reflexivity. }
  rewrite <- Hset. clear -Hpost. revert st2.
  induction Hpost as [|p post Hp _ IH]; intros st; [reflexivity|].
  cbn [map]. rewrite processLines_cons.
  destruct (lineStep (p ++ bufio.lf) st) as [st1|] eqn:E; [|reflexivity].
  rewrite IH. exact (usagelessLine_step p st st1 Hp E).
Qed.

End MoreDecoder.

(* ===================================================================== *)
(** * Further properties of the client *)
(* ===================================================================== *)

Section MoreClient.

Import logger llm StreamSpec MoreSpec.
Context {RT : Runtime}.

Lemma extractMessages_app (a b : list Message) (sys pr : string) :
  extractMessages (a ++ b) sys pr
  = extractMessages b (fst (extractMessages a sys pr)) (snd (extractMessages a sys pr)).
Proof.
  revert sys pr. induction a as [|m a IH]; intros sys pr; [reflexivity|].
  cbn [app extractMessages].
  destruct (Role m =? "system")%string; [apply IH|].
  destruct (Role m =? "user")%string; apply IH.
Qed.

Lemma callStream_failure
    (c : LLMClient) (env : Env) (payload : Payload)
    (m : Message) (u : Usage) (rid e : string) (evs : list Event) :
  callStream c env payload = (m, u, rid, Some e, evs) ->
  m = mkMessage "" "" /\ u = emptyUsage /\ rid = "" /\ evs = [].
Proof.
  unfold callStream.
  destruct (createRequest c payload) as [req|e0];
    [|intros [= <- <- <- _ <-]; repeat split].
  destruct (Do env req) as [resp|e0]; [|intros [= <- <- <- _ <-]; repeat split].
  destruct (negb (StatusCode resp =? 200)); [intros [= <- <- <- _ <-]; repeat split|].
  unfold processStream. discriminate.
Qed.


(** A query that fails, for whatever reason, returns the empty answer
    and leaves the client as it was: its conversation prefix does not
    keep the question. *)
Theorem Query_failure_leaves_client
    (c : LLMClient) (env : Env) (s : Store) (q : string) :
  err (Query c env s q) <> None ->
  answer (Query c env s q) = "" /\ client (Query c env s q) = c.
Proof.
  unfold Query.
  destruct (callStream c env _) as [[[[m u] rid] e] evs].
  destruct e as [e|]; destruct (logBestEffort _ _ _); cbn [err answer client].
  - intros _. split; reflexivity.
  - intros H. contradiction.
Qed.

Lemma logBestEffort_appends (c : LLMClient) (entry : LogEntry) (s : Store) :
  exists rows,
    fst (logBestEffort c entry s) = (s ++ rows)%list /\ (length rows <= 1)%nat.
Proof.
  unfold logBestEffort. destruct (reqLogger c) as [l|].
  - unfold LogResponse, Exec_insert.
    destruct (negb (enabled l) || negb (db l)).
    + exists []. rewrite app_nil_r. cbn. split; [reflexivity|lia].
    + destruct (hasID s (id (rowOf entry))).
      * exists []. rewrite app_nil_r. cbn. split; [reflexivity|lia].
      * exists [rowOf entry]. cbn. split; [reflexivity|lia].
  - exists []. rewrite app_nil_r. cbn. split; [reflexivity|lia].
Qed.

(** A query only ever adds to the ledger: the rows stored before it
    are still there, unchanged and in their order, followed by at most
    one new row. *)
Theorem Query_appends_at_most_one_row
    (c : LLMClient) (env : Env) (s : Store) (q : string) :
  exists rows,
    store (Query c env s q) = (s ++ rows)%list /\ (length rows <= 1)%nat.
Proof.
  unfold Query.
  destruct (callStream c env _) as [[[[m u] rid] e] evs].
  destruct e as [e|].
  - match goal with |- context [logBestEffort ?c' ?en s] =>
      destruct (logBestEffort_appends c' en s) as (rows & Hr & Hl);
      destruct (logBestEffort c' en s) end.
    exists rows. split; [exact Hr|exact Hl].
  - match goal with |- context [logBestEffort ?c' ?en s] =>
      destruct (logBestEffort_appends c' en s) as (rows & Hr & Hl);
      destruct (logBestEffort c' en s) end.
    exists rows. split; [exact Hr|exact Hl].
Qed.


(** The prompt that a successful query logs.  When the slice
    [c.messages] is full, the row holds the question.  When it has
    room left, [append] wrote the question into its array and the
    answer was then written over it before the entry was built: the
    row holds the last user message of the earlier prefix, or no
    prompt. *)
Theorem Query_success_logged_prompt
    (c : LLMClient) (env : Env) (s : Store) (q : string) (l : RequestLogger)
    (m : Message) (u : Usage) (rid : string) (evs : list Event) :
  callStream c env (queryPayload c (messages c ++ [mkMessage "user" q])%list)
    = (m, u, rid, None, evs) ->
  reqLogger c = Some l -> enabled l = true -> db l = true ->
  hasID s rid = false ->
  exists row,
    store (Query c env s q) = (s ++ [row])%list /\
    id row = rid /\
    response row = Content m /\
    prompt row = if (0 <? spare c)%nat then lastUser (messages c) else q.
Proof.
  intros Hcall Hl Hen Hdb Hfresh. unfold Query. rewrite Hcall.
  pose proof (callStream_success _ _ _ _ _ _ _ Hcall) as Hrole.
  set (entry := CreateLogEntry _ _ _ _ _ _ _ _).
  erewrite logBestEffort_insert;
    [| exact Hl | exact Hen | exact Hdb | exact Hfresh].
  exists (rowOf entry). cbn [store]. split; [reflexivity|].
  split; [apply id_rowOf|].
  unfold rowOf, entry, lastUser. cbn [LMessages CreateLogEntry Response].
  destruct (0 <? spare c)%nat.
  - rewrite extractMessages_app. destruct m as [role content]. cbn in Hrole. subst role.
    cbn. destruct (extractMessages (messages c) "" ""). split; reflexivity.
  - rewrite extractMessages_app. cbn.
    destruct (extractMessages (messages c) "" ""). split; reflexivity.
Qed.

(** The ledger has no influence on a query: two clients that differ
    in their logger only, on whatever tables, return the same answer
    and error, hold the same conversation prefix afterwards, and call
    the sink with the same texts. *)
Theorem Query_result_independent_of_ledger
    (c1 c2 : LLMClient) (env : Env) (s1 s2 : Store) (q : string) :
  config c1 = config c2 -> messages c1 = messages c2 -> spare c1 = spare c2 ->
  answer (Query c1 env s1 q) = answer (Query c2 env s2 q) /\
  err (Query c1 env s1 q) = err (Query c2 env s2 q) /\
  messages (client (Query c1 env s1 q)) = messages (client (Query c2 env s2 q)) /\
  sinkCalls (trace (Query c1 env s1 q)) = sinkCalls (trace (Query c2 env s2 q)).
Proof.
  destruct c1 as [cfg1 ms1 sp1 lg1], c2 as [cfg2 ms2 sp2 lg2]. cbn.
  intros -> -> ->.
  assert (forall lg p,
            callStream (mkLLMClient cfg2 ms2 sp2 lg) env p
            = callStream (mkLLMClient cfg2 ms2 sp2 None) env p) as Hsame
    by reflexivity.
  assert (forall c' en s, sinkCalls (snd (logBestEffort c' en s)) = []) as Hwarn.
  { intros c' en s. unfold logBestEffort. destruct (reqLogger c'); [|reflexivity].
    destruct (LogResponse _ _ _) as [s' [w|]]; reflexivity. }
  unfold Query, queryPayload. cbn [config messages spare reqLogger].
  rewrite (Hsame lg1), (Hsame lg2).
  destruct (callStream _ env _) as [[[[m u] rid] e] evs].
  destruct e as [e|].
  - repeat match goal with |- context [logBestEffort ?c' ?en ?s] =>
      let H := fresh in
      pose proof (Hwarn c' en s) as H;
      destruct (logBestEffort c' en s) end.
    cbn in *. rewrite !sinkCalls_app. repeat split; congruence.
  - repeat match goal with |- context [logBestEffort ?c' ?en ?s] =>
      let H := fresh in
      pose proof (Hwarn c' en s) as H;
      destruct (logBestEffort c' en s) end.
    cbn in *. rewrite !sinkCalls_app. repeat split; congruence.
Qed.

(** [createRequest] sends exactly one credential: for an endpoint
    that contains "openai.azure.com" the header [Api-Key] and no
    [Authorization], for any other the header [Authorization] with
    the bearer token and no [Api-Key]; the organization header is
    there exactly when an organization is configured. *)
Theorem createRequest_one_credential_header (c : LLMClient) (payload : Payload) :
  http_NewRequest (Endpoint (config c)) = None ->
  exists req,
    createRequest c payload = inl req /\
    Method req = "POST" /\ URL req = Endpoint (config c) /\ Body req = payload /\
    Header req !! "Content-Type" = Some "application/json" /\
    (if strings.Contains (Endpoint (config c)) "openai.azure.com"
     then Header req !! "Api-Key" = Some (Auth (config c)) /\
          Header req !! "Authorization" = None
     else Header req !! "Authorization" = Some ("Bearer " ++ Auth (config c)) /\
          Header req !! "Api-Key" = None) /\
    Header req !! "Openai-Organization"
    = (if (OrgID (config c) =? "")%string then None else Some (OrgID (config c))).
Proof.
  intros Hurl. unfold createRequest. rewrite Hurl. eexists. split; [reflexivity|].
  cbn [Method URL Body Header].
  split; [reflexivity|]. split; [reflexivity|]. split; [reflexivity|].
  split; [apply lookup_insert_eq|].
  destruct (strings.Contains _ _); destruct (OrgID (config c) =? "")%string;
    cbn [negb]; repeat split;
    repeat first [ rewrite lookup_insert_eq | rewrite lookup_insert_ne by discriminate
                 | rewrite lookup_empty ];
    reflexivity.
Qed.

Lemma NewRequestLogger_error_no_logger (os : OS) :
  snd (NewRequestLogger os) <> None -> fst (NewRequestLogger os) = None.
Proof.
  unfold NewRequestLogger.
  destruct (negb _); [cbn; congruence|].
  destruct (UserHomeDir os); [reflexivity|].
  destruct (MkdirAll os); [reflexivity|].
  destruct (sql_Open os); [reflexivity|].
  unfold initSchema. destruct (Exec_schema os); [reflexivity|cbn; congruence].
Qed.

(** Logging is best effort from the start: when the ledger cannot be
    opened, [NewLLMClient] still returns a client, and its queries
    write no row and print no warning. *)
Theorem Query_without_ledger
    (cfg : ModelConfig) (os : OS) (env : Env) (s : Store) (q : string) :
  snd (NewRequestLogger os) <> None ->
  reqLogger (NewLLMClient cfg os) = None /\
  store (Query (NewLLMClient cfg os) env s q) = s /\
  existsb isLogWarning (trace (Query (NewLLMClient cfg os) env s q)) = false.
Proof.
  intros Herr. apply NewRequestLogger_error_no_logger in Herr.
  split; [exact Herr|].
  assert (forall c' en, reqLogger c' = None -> logBestEffort c' en s = (s, [])) as Hoff
    by (intros c' en H; unfold logBestEffort; rewrite H; reflexivity).
  unfold Query.
  destruct (callStream _ env _) as [[[[m u] rid] e] evs] eqn:Hcall.
  destruct e as [e|].
  - rewrite Hoff by exact Herr. cbn [store trace]. split; [reflexivity|].
    apply callStream_failure in Hcall as (_ & _ & _ & ->). reflexivity.
  - rewrite Hoff by exact Herr. cbn [store trace]. split; [reflexivity|].
    rewrite app_nil_r. revert Hcall. unfold callStream.
    destruct (createRequest _ _) as [req|e0]; [|discriminate].
    destruct (Do env req) as [resp|e0]; [|discriminate].
    destruct (negb _); [discriminate|].
    unfold processStream. intros [= _ _ _ <-].
    apply (processLines_invariant (fun st => existsb isLogWarning (events st) = false));
      [|reflexivity].
    intros raw st st' Hst. unfold MoreSpec.lineStep.
    destruct (_ =? _)%string; [discriminate|].
    destruct (strings.HasPrefix _ _); [|intros [= <-]; exact Hst].
    destruct (json_Unmarshal _) as [chunk|].
    + destruct (Choices chunk) as [|choice others]; [intros [= <-]; exact Hst|].
      unfold afterContent. destruct (_ && _); intros [= <-]; [exact Hst|].
      cbn [events]. rewrite existsb_app, Hst. reflexivity.
    + intros [= <-]. unfold afterMalformed. cbn [events].
      rewrite existsb_app, Hst. reflexivity.
Qed.





End MoreClient.

(* ===================================================================== *)
(** * Further properties of the ledger *)
(* ===================================================================== *)

Section MoreLedger.

Import logger MoreSpec.

Lemma scanRow_fields (r : Row) (e : LogEntry) :
  scanRow r = Some e ->
  Error e = "" /\ LTotalTokens e = 0 /\ RequestID e = id r /\
  LMessages e
  = ((if (system r =? "")%string then [] else [mkMessage "system" (system r)]) ++
     (if (prompt r =? "")%string then [] else [mkMessage "user" (prompt r)]))%list.
Proof.
  unfold scanRow. destruct (estimated_cost r); [|discriminate].
  intros [= <-]. repeat split.
Qed.

(** An entry read back holds at most two messages, a system message
    and then a user message, none of them empty: the answers and the
    earlier turns of a conversation are not read back as messages. *)
Theorem GetRecentResponses_messages_shape
    (l : RequestLogger) (limit : Z) (s : Store) :
  Forall (fun e =>
            (length (LMessages e) <= 2)%nat /\
            Forall (fun m => (Role m = "system" \/ Role m = "user") /\ Content m <> "")
                   (LMessages e))
         (fst (GetRecentResponses l limit s)).
Proof.
  apply List.Forall_forall. intros e Hin.
  unfold GetRecentResponses in Hin.
  destruct (negb (enabled l) || negb (db l)); [destruct Hin|].
  cbn [fst] in Hin. apply scanRows_In in Hin as (r & _ & Hr).
  apply scanRow_fields in Hr as (_ & _ & _ & ->).
  destruct (String.eqb_spec (system r) ""), (String.eqb_spec (prompt r) "");
    cbn; (split; [lia|]);
    repeat (apply List.Forall_cons; [cbn; split; [auto|assumption]|]);
    apply List.Forall_nil.
Qed.

Lemma length_insertDesc (r : Row) (rows : list Row) :
  length (insertDesc r rows) = S (length rows).
Proof.
  induction rows as [|x rows IH]; [reflexivity|].
  cbn [insertDesc]. destruct (String.ltb _ _); cbn [length]; congruence.
Qed.

Lemma length_orderByDatetimeDesc (s : Store) :
  length (orderByDatetimeDesc s) = length s.
Proof.
  unfold orderByDatetimeDesc.
  assert (forall acc, length (fold_left (fun acc r => insertDesc r acc) s acc)
                      = (length s + length acc)%nat) as H.
  { induction s as [|r s IH]; intros acc; [reflexivity|].
    cbn [fold_left]. rewrite IH, length_insertDesc. cbn [length]. lia. }
  rewrite H. cbn. lia.
Qed.

Lemma length_scanRows (rows : list Row) : (length (scanRows rows) <= length rows)%nat.
Proof.
  induction rows as [|r rows IH]; [reflexivity|].
  cbn [scanRows]. destruct (scanRow r); cbn [length]; lia.
Qed.

(** [GetRecentResponses] returns no more entries than the limit, when
    that is not negative, and never more than there are rows; with the
    limit 0 it returns none. *)
Theorem GetRecentResponses_at_most_limit (l : RequestLogger) (limit : Z) (s : Store) :
  0 <= limit ->
  Z.of_nat (length (fst (GetRecentResponses l limit s))) <= limit /\
  (length (fst (GetRecentResponses l limit s)) <= length s)%nat.
Proof.
  intros Hl. unfold GetRecentResponses.
  destruct (negb (enabled l) || negb (db l)); cbn [fst length]; [lia|].
  pose proof (length_scanRows (Limit limit (orderByDatetimeDesc s))) as H.
  unfold Limit in *. destruct (Z.ltb_spec limit 0); [lia|].
  rewrite length_take, length_orderByDatetimeDesc in H. lia.
Qed.

Lemma compare_utod (d1 d2 : Z) :
  0 <= d1 <= 9 -> 0 <= d2 <= 9 ->
  Ascii.compare (time.utod d1) (time.utod d2) = (d1 ?= d2).
Proof.
  intros H1 H2.
  assert (d1 = 0 \/ d1 = 1 \/ d1 = 2 \/ d1 = 3 \/ d1 = 4 \/
          d1 = 5 \/ d1 = 6 \/ d1 = 7 \/ d1 = 8 \/ d1 = 9) as C1 by lia.
  assert (d2 = 0 \/ d2 = 1 \/ d2 = 2 \/ d2 = 3 \/ d2 = 4 \/
          d2 = 5 \/ d2 = 6 \/ d2 = 7 \/ d2 = 8 \/ d2 = 9) as C2 by lia.
  clear H1 H2.
  repeat (destruct C1 as [-> | C1]);
    repeat (destruct C2 as [-> | C2]); subst; reflexivity.
Qed.

Lemma compare_same_head (c : ascii) (r1 r2 : string) :
  String.compare (String c r1) (String c r2) = String.compare r1 r2.
Proof.
  cbn [String.compare].
  assert (Ascii.compare c c = Eq) as ->
    by (unfold Ascii.compare; apply N.compare_refl).
  reflexivity.
Qed.

Lemma compare_2 (n m : Z) (r1 r2 : string) :
  0 <= n <= 99 -> 0 <= m <= 99 ->
  String.compare (String (time.utod (n / 10)) (String (time.utod (n mod 10)) r1))
                 (String (time.utod (m / 10)) (String (time.utod (m mod 10)) r2))
  = match n ?= m with Eq => String.compare r1 r2 | Lt => Lt | Gt => Gt end.
Proof.
  intros Hn Hm. cbn [String.compare].
  rewrite !compare_utod by lia.
  destruct (Z.compare_spec (n / 10) (m / 10)),
           (Z.compare_spec (n mod 10) (m mod 10)),
           (Z.compare_spec n m); try reflexivity; lia.
Qed.

Lemma compare_4 (n m : Z) (r1 r2 : string) :
  0 <= n <= 9999 -> 0 <= m <= 9999 ->
  String.compare
    (String (time.utod (n / 1000)) (String (time.utod (n / 100 mod 10))
       (String (time.utod (n / 10 mod 10)) (String (time.utod (n mod 10)) r1))))
    (String (time.utod (m / 1000)) (String (time.utod (m / 100 mod 10))
       (String (time.utod (m / 10 mod 10)) (String (time.utod (m mod 10)) r2))))
  = match n ?= m with Eq => String.compare r1 r2 | Lt => Lt | Gt => Gt end.
Proof.
  intros Hn Hm.
  replace (n / 1000) with ((n / 100) / 10) by lia.
  replace (m / 1000) with ((m / 100) / 10) by lia.
  replace (n / 10 mod 10) with ((n mod 100) / 10) by lia.
  replace (m / 10 mod 10) with ((m mod 100) / 10) by lia.
  replace (n mod 10) with ((n mod 100) mod 10) by lia.
  replace (m mod 10) with ((m mod 100) mod 10) by lia.
  rewrite (compare_2 (n / 100) (m / 100)) by lia.
  rewrite (compare_2 (n mod 100) (m mod 100)) by lia.
  destruct (Z.compare_spec (n / 100) (m / 100)),
           (Z.compare_spec (n mod 100) (m mod 100)),
           (Z.compare_spec n m); try reflexivity; lia.
Qed.

(** The RFC 3339 texts of two timestamps of the years 0 to 9999 are
    ordered as the timestamps are. *)
Lemma Format_earlier (t1 t2 : Time) :
  time.valid t1 -> time.valid t2 ->
  0 <= year t1 <= 9999 -> 0 <= year t2 <= 9999 ->
  earlier t1 t2 ->
  String.compare (time.Format t1) (time.Format t2) = Lt.
Proof.
  intros (Hmo1 & Hd1 & Hh1 & Hmi1 & Hs1 & _) (Hmo2 & Hd2 & Hh2 & Hmi2 & Hs2 & _)
         Hy1 Hy2 He.
  pose proof (daysIn_le_31 (month t1) (year t1)).
  pose proof (daysIn_le_31 (month t2) (year t2)).
  unfold time.Format.
  rewrite !appendInt_4 by lia. rewrite !appendInt_2 by lia.
  cbn [String.append].
  rewrite compare_4 by lia. rewrite compare_same_head.
  rewrite compare_2 by lia. rewrite compare_same_head.
  rewrite compare_2 by lia. rewrite compare_same_head.
  rewrite compare_2 by lia. rewrite compare_same_head.
  rewrite compare_2 by lia. rewrite compare_same_head.
  rewrite compare_2 by lia.
  unfold earlier in He.
  destruct (Z.compare_spec (year t1) (year t2)); [|reflexivity|lia].
  destruct (Z.compare_spec (month t1) (month t2)); [|reflexivity|lia].
  destruct (Z.compare_spec (day t1) (day t2)); [|reflexivity|lia].
  destruct (Z.compare_spec (hour t1) (hour t2)); [|reflexivity|lia].
  destruct (Z.compare_spec (minute t1) (minute t2)); [|reflexivity|lia].
  destruct (Z.compare_spec (second t1) (second t2)); [lia|reflexivity|lia].
Qed.

Lemma scanRow_rowOf (e : LogEntry) :
  is_nan (EstimatedCost e) = false ->
  exists e', scanRow (rowOf e) = Some e' /\ RequestID e' = RequestID e.
Proof.
  intros Hn. unfold scanRow, rowOf.
  destruct (extractMessages _ _ _). cbn [estimated_cost]. rewrite Hn.
  eexists. split; reflexivity.
Qed.

Lemma datetime_rowOf (e : LogEntry) : datetime_utc (rowOf e) = time.Format (Timestamp e).
Proof. unfold rowOf. destruct (extractMessages _ _ _). reflexivity. Qed.

(** The newest entry comes first.  Of two entries with different ids
    and timestamps of the years 0 to 9999, logged into an empty
    enabled ledger in either order, [GetRecentResponses(2)] returns
    the one with the later second first, and [GetRecentResponses(1)]
    returns it alone. *)
Theorem GetRecentResponses_newest_first
    (l : RequestLogger) (e1 e2 : LogEntry) :
  enabled l = true -> db l = true ->
  time.valid (Timestamp e1) -> time.valid (Timestamp e2) ->
  0 <= year (Timestamp e1) <= 9999 -> 0 <= year (Timestamp e2) <= 9999 ->
  is_nan (EstimatedCost e1) = false -> is_nan (EstimatedCost e2) = false ->
  RequestID e1 <> RequestID e2 ->
  earlier (Timestamp e1) (Timestamp e2) ->
  let s12 := fst (LogResponse l e2 (fst (LogResponse l e1 []))) in
  let s21 := fst (LogResponse l e1 (fst (LogResponse l e2 []))) in
  (map RequestID (fst (GetRecentResponses l 2 s12)) = [RequestID e2; RequestID e1] /\
   map RequestID (fst (GetRecentResponses l 1 s12)) = [RequestID e2]) /\
  (map RequestID (fst (GetRecentResponses l 2 s21)) = [RequestID e2; RequestID e1] /\
   map RequestID (fst (GetRecentResponses l 1 s21)) = [RequestID e2]).
Proof.
  intros Hen Hdb Hv1 Hv2 Hy1 Hy2 Hn1 Hn2 Hid He s12 s21.
  pose proof (Format_earlier _ _ Hv1 Hv2 Hy1 Hy2 He) as Hlt.
  assert (String.ltb (datetime_utc (rowOf e1)) (datetime_utc (rowOf e2)) = true) as H12
    by (rewrite !datetime_rowOf; unfold String.ltb; rewrite Hlt; reflexivity).
  assert (String.ltb (datetime_utc (rowOf e2)) (datetime_utc (rowOf e1)) = false) as H21
    by (rewrite !datetime_rowOf; unfold String.ltb;
        rewrite String.compare_antisym, Hlt; reflexivity).
  assert (s12 = [rowOf e1; rowOf e2]) as ->.
  { subst s12. unfold LogResponse, Exec_insert. rewrite Hen, Hdb. cbn.
    rewrite !id_rowOf. apply String.eqb_neq in Hid. rewrite Hid. reflexivity. }
  assert (s21 = [rowOf e2; rowOf e1]) as ->.
  { subst s21. unfold LogResponse, Exec_insert. rewrite Hen, Hdb. cbn.
    rewrite !id_rowOf. assert (RequestID e2 <> RequestID e1) as Hid' by congruence.
    apply String.eqb_neq in Hid'. rewrite Hid'. reflexivity. }
  destruct (scanRow_rowOf e1 Hn1) as (r1 & Hr1 & Hi1).
  destruct (scanRow_rowOf e2 Hn2) as (r2 & Hr2 & Hi2).
  unfold GetRecentResponses, orderByDatetimeDesc, Limit. rewrite Hen, Hdb.
  cbn [negb orb fst fold_left insertDesc Z.ltb Z.compare].
  rewrite H12, H21.
  change (Z.to_nat 2) with 2%nat. change (Z.to_nat 1) with 1%nat.
  cbn [take insertDesc scanRows]. rewrite Hr1, Hr2. cbn [map].
  rewrite Hi1, Hi2. repeat split.
Qed.

(** A request for which no usage arrived costs nothing, whatever the
    model: with zero prompt and completion tokens [CalculateCost] is 0,
    for the models of the table and for any other. *)
Theorem CalculateCost_no_tokens (m : string) : CalculateCost m 0 0 = 0%float.
Proof.
  unfold CalculateCost. destruct (modelPricing !! m) as [pricing|] eqn:E; [|reflexivity].
  unfold modelPricing in E. apply elem_of_list_to_map_2 in E.
  repeat (apply elem_of_cons in E as [E|E]; [injection E as -> ->; reflexivity|]).
  apply elem_of_nil in E. destruct E.
Qed.

End MoreLedger.

(* ===================================================================== *)
(** * Properties of the logs command *)
(* ===================================================================== *)

Section MoreLogs.

Import logger logs LogsSpec.

Lemma GetRecentResponses_entries (l : RequestLogger) (limit : Z) (s : Store) :
  snd (GetRecentResponses l limit s) = None /\
  Forall (fun e => Error e = "" /\ LTotalTokens e = 0) (fst (GetRecentResponses l limit s)).
Proof.
  unfold GetRecentResponses.
  destruct (negb (enabled l) || negb (db l)); cbn [fst snd]; (split; [reflexivity|]);
    [constructor|].
  apply List.Forall_forall. intros e Hin.
  apply scanRows_In in Hin as (r & _ & Hr).
  apply scanRow_fields in Hr as (He & Ht & _). split; assumption.
Qed.

Lemma wrapInt_small (z : Z) :
  -9223372036854775808 <= z < 9223372036854775808 -> wrapInt z = z.
Proof. intros H. unfold wrapInt. rewrite Z.mod_small by lia. lia. Qed.

Lemma totalTokens_fold (entries : list LogEntry) (t : Totals) :
  Forall (fun e => Error e = "" /\ LTotalTokens e = 0) entries ->
  totalTokens t = 0 ->
  totalTokens (fold_left addEntry entries t) = 0.
Proof.
  intros H. revert t. induction H as [|e entries [_ He] _ IH]; intros t Ht; [exact Ht|].
  cbn [fold_left]. apply IH. unfold addEntry. cbn [totalTokens].
  rewrite Ht, He. reflexivity.
Qed.

Lemma printEntry_zero_total (len i : Z) (e : LogEntry) :
  LTotalTokens e = 0 -> Forall showsZeroTotal (printEntry len i e).
Proof.
  intros Ht. unfold printEntry.
  repeat (apply Forall_app; split); repeat constructor; try exact Ht.
  - induction (LMessages e) as [|m ms IH]; cbn [printPrompt]; [constructor|].
    destruct (Role m =? "user")%string; [repeat constructor|exact IH].
  - destruct (negb _); [repeat constructor|].
    destruct (strings.Contains _ _); repeat constructor.
  - destruct (DurationMs e >? 0); repeat constructor.
  - destruct (negb _); repeat constructor.
  - destruct (i <? len - 1); repeat constructor.
Qed.

Lemma printFormatted_from_zero_total (len i : Z) (entries : list LogEntry) :
  Forall (fun e => Error e = "" /\ LTotalTokens e = 0) entries ->
  Forall showsZeroTotal (printFormatted_from len i entries).
Proof.
  intros H. revert i. induction H as [|e entries [_ He] _ IH]; intros i; [constructor|].
  cbn [printFormatted_from]. apply Forall_app. split; [|apply IH].
  apply printEntry_zero_total, He.
Qed.

Lemma printJSON_no_lines (P : Printed -> Prop) (entries : list LogEntry) :
  (forall e, P (JSONText e)) -> Forall P (printJSON entries).
Proof.
  intros HP. induction entries as [|e entries IH]; cbn [printJSON]; [constructor|].
  destruct (marshalFails e); [exact IH|constructor; [apply HP|exact IH]].
Qed.

(** The logs command always shows a total of zero tokens, in the
    line of every entry and in the status, whatever totals the
    entries were logged with: the total is neither stored nor summed
    from the two counts that are. *)
Theorem logs_show_zero_total_tokens (flags : Flags) (os : OS) (s : Store) :
  Forall showsZeroTotal (runLogsCommand flags os s).
Proof.
  unfold runLogsCommand.
  destruct (NewRequestLogger os) as [[log|] [e|]]; try (repeat constructor).
  destruct (pathFlag flags); [repeat constructor|].
  destruct (statusFlag flags).
  - unfold printStatus.
    destruct (GetRecentResponses_entries log 1000000 s) as [Herr Hent].
    destruct (GetRecentResponses log 1000000 s) as [entries err]. cbn [fst snd] in *.
    subst err. destruct (length entries =? 0)%nat; repeat constructor.
    cbn. apply totalTokens_fold; [exact Hent|reflexivity].
  - destruct (GetRecentResponses_entries log (limitFlag flags) s) as [Herr Hent].
    destruct (GetRecentResponses log (limitFlag flags) s) as [entries err].
    cbn [fst snd] in *. subst err.
    destruct (length entries =? 0)%nat; [repeat constructor|].
    destruct (jsonFlag flags).
    + apply printJSON_no_lines. intros e. exact I.
    + apply printFormatted_from_zero_total, Hent.
Qed.

Lemma printEntry_no_error (len i : Z) (e : LogEntry) :
  Error e = "" -> existsb isErrorValue (printEntry len i e) = false.
Proof.
  intros He. unfold printEntry. rewrite He. cbn [String.eqb negb].
  rewrite !existsb_app. cbn.
  assert (existsb isErrorValue (printPrompt (LMessages e)) = false) as ->.
  { induction (LMessages e) as [|m ms IH]; cbn [printPrompt]; [reflexivity|].
    destruct (Role m =? "user")%string; [reflexivity|exact IH]. }
  destruct (strings.Contains _ _), (DurationMs e >? 0), (negb _), (i <? len - 1);
    reflexivity.
Qed.

(** The logs command never shows an error text: the branch of
    [printFormatted] that prints "ERROR: ..." is not taken for an
    entry read from the ledger, also for a request that failed. *)
Theorem logs_never_show_an_error (flags : Flags) (os : OS) (s : Store) :
  existsb isErrorValue (runLogsCommand flags os s) = false.
Proof.
  unfold runLogsCommand.
  destruct (NewRequestLogger os) as [[log|] [e|]]; try reflexivity.
  destruct (pathFlag flags); [reflexivity|].
  destruct (statusFlag flags).
  - unfold printStatus.
    destruct (GetRecentResponses log 1000000 s) as [entries [err|]]; [reflexivity|].
    destruct (length entries =? 0)%nat; reflexivity.
  - destruct (GetRecentResponses_entries log (limitFlag flags) s) as [Herr Hent].
    destruct (GetRecentResponses log (limitFlag flags) s) as [entries err].
    cbn [fst snd] in *. subst err.
    destruct (length entries =? 0)%nat; [reflexivity|].
    destruct (jsonFlag flags).
    + induction entries as [|e entries IH]; [reflexivity|].
      cbn [printJSON]. inversion Hent; subst.
      destruct (marshalFails e); [apply IH; assumption|]. cbn. apply IH. assumption.
    + unfold printFormatted. generalize (Z.of_nat (length entries)) 0.
      induction Hent as [|e entries [He _] _ IH]; intros len i; [reflexivity|].
      cbn [printFormatted_from]. rewrite existsb_app, IH, printEntry_no_error by exact He.
      reflexivity.
Qed.

(** With the opt-out variable set, the logs command shows nothing of
    the ledger, whatever it holds: "No logs found", or a status of
    zero requests. *)
Theorem logs_with_opt_out (flags : Flags) (os : OS) (s : Store) :
  Getenv os "SHELL_AI_DISABLE_LOGGING" <> "" ->
  runLogsCommand flags os s
  = if pathFlag flags then [DBPath]
    else if statusFlag flags then [StatusPath; TotalRequests 0]
    else [NoLogsFound].
Proof.
  intros Hset. unfold runLogsCommand, NewRequestLogger.
  destruct (String.eqb_spec (Getenv os "SHELL_AI_DISABLE_LOGGING") "") as [E|_];
    [contradiction|].
  cbn [negb]. destruct (pathFlag flags), (statusFlag flags); reflexivity.
Qed.





Lemma GetRecentResponses_length (l : RequestLogger) (limit : Z) (s : Store) :
  0 <= limit -> Z.of_nat (length (fst (GetRecentResponses l limit s))) <= limit.
Proof.
  intros Hl. unfold GetRecentResponses.
  destruct (negb (enabled l) || negb (db l)); cbn [fst length]; [lia|].
  pose proof (length_scanRows (Limit limit (orderByDatetimeDesc s))) as H.
  unfold Limit in *. destruct (Z.ltb_spec limit 0); [lia|].
  rewrite length_take in H. lia.
Qed.

Lemma modelCounts_fold (m : string) (entries : list LogEntry) (t : Totals) :
  0 <= default 0 (modelCounts t !! m) ->
  default 0 (modelCounts t !! m) + Z.of_nat (length entries) < 9223372036854775808 ->
  default 0 (modelCounts (fold_left addEntry entries t) !! m)
  = default 0 (modelCounts t !! m) + Z.of_nat (countModel m entries).
Proof.
  revert t. induction entries as [|e entries IH]; intros t H0 Hb.
  - cbn. lia.
  - cbn [fold_left countModel length] in *.
    assert (default 0 (modelCounts (addEntry t e) !! m)
            = default 0 (modelCounts t !! m)
              + (if (LModel e =? m)%string then 1 else 0)) as Hstep.
    { unfold addEntry. cbn [modelCounts]. rewrite lookup_insert.
      destruct (String.eqb_spec (LModel e) m) as [->|Hne].
      - rewrite decide_True by reflexivity. cbn [default].
        apply wrapInt_small. lia.
      - rewrite decide_False by exact Hne. lia. }
    rewrite IH.
    + rewrite Hstep. destruct (LModel e =? m)%string; lia.
    + rewrite Hstep. destruct (LModel e =? m)%string; lia.
    + rewrite Hstep. destruct (LModel e =? m)%string; lia.
Qed.

(** The status counts every entry once: when the ledger returns
    entries, the number of requests shown is their number, and the
    count shown for each model is the number of entries of that
    model; when it returns none, the status is "Total requests: 0". *)
Theorem printStatus_counts_by_model (log : RequestLogger) (s : Store) :
  (fst (GetRecentResponses log 1000000 s) = [] ->
   printStatus log s = [StatusPath; TotalRequests 0]) /\
  (fst (GetRecentResponses log 1000000 s) <> [] ->
   exists cost counts,
     printStatus log s
     = [StatusPath;
        TotalRequests (Z.of_nat (length (fst (GetRecentResponses log 1000000 s))));
        TotalTokensLine 0; TotalCostLine cost; ByModelHeader; ModelCounts counts] /\
     forall m,
       default 0 (counts !! m)
       = Z.of_nat (countModel m (fst (GetRecentResponses log 1000000 s)))).
Proof.
  unfold printStatus.
  destruct (GetRecentResponses_entries log 1000000 s) as [Herr Hent].
  pose proof (GetRecentResponses_length log 1000000 s ltac:(lia)) as Hlen.
  destruct (GetRecentResponses log 1000000 s) as [entries err]. cbn [fst snd] in *.
  subst err. split.
  - intros ->. reflexivity.
  - intros Hne. destruct entries as [|e entries]; [contradiction|].
    change (length (e :: entries) =? 0)%nat with false. cbv iota.
    eexists. eexists. split.
    + f_equal. f_equal. f_equal. unfold totalsOf.
      rewrite totalTokens_fold; [reflexivity|exact Hent|reflexivity].
    + intros m. unfold totalsOf. rewrite modelCounts_fold.
      * cbn [modelCounts]. rewrite lookup_empty. cbn. lia.
      * cbn [modelCounts]. rewrite lookup_empty. cbn. lia.
      * cbn [modelCounts]. rewrite lookup_empty. cbn [default]. lia.
Qed.

End MoreLogs.

(* ===================================================================== *)
(** * White space around a line *)
(* ===================================================================== *)

Section LineEndings.

Import llm StreamSpec MoreSpec.
Context {RT : Runtime}.

Lemma asciiSpace_not_second (c1 c : ascii) :
  strings.asciiSpace c = true -> strings.space2 c1 c = false.
Proof.
  unfold strings.asciiSpace, strings.space2. intros H.
  destruct (Nat.eqb_spec (nat_of_ascii c) 133) as [E|_]; [rewrite E in H; discriminate|].
  destruct (Nat.eqb_spec (nat_of_ascii c) 160) as [E|_]; [rewrite E in H; discriminate|].
  apply andb_false_r.
Qed.

Lemma asciiSpace_lt_128 (c : ascii) :
  strings.asciiSpace c = true -> (nat_of_ascii c < 128)%nat.
Proof.
  unfold strings.asciiSpace. intros H.
  apply orb_true_iff in H as [H|H].
  - apply andb_true_iff in H as [_ H]. apply Nat.leb_le in H. lia.
  - apply Nat.eqb_eq in H. lia.
Qed.

Lemma asciiSpace_not_third (c1 c2 c : ascii) :
  strings.asciiSpace c = true -> strings.space3 c1 c2 c = false.
Proof.
  intros H. apply asciiSpace_lt_128 in H. unfold strings.space3.
  destruct (Nat.eqb_spec (nat_of_ascii c) 128); [lia|].
  destruct (Nat.eqb_spec (nat_of_ascii c) 159); [lia|].
  destruct (Nat.eqb_spec (nat_of_ascii c) 168); [lia|].
  destruct (Nat.eqb_spec (nat_of_ascii c) 169); [lia|].
  destruct (Nat.eqb_spec (nat_of_ascii c) 175); [lia|].
  destruct (Nat.leb_spec 128 (nat_of_ascii c)); [lia|].
  rewrite !andb_false_r. reflexivity.
Qed.

Lemma TrimLeftSpace_snoc (n : nat) (s : string) (c : ascii) :
  (String.length s <= n)%nat ->
  strings.asciiSpace c = true ->
  (strings.TrimLeftSpace (s ++ String c "") = "" /\ strings.TrimLeftSpace s = "") \/
  strings.TrimLeftSpace (s ++ String c "") = strings.TrimLeftSpace s ++ String c "".
Proof.
  intros Hn Hc. revert s Hn. induction n as [|n IH]; intros s Hn.
  - destruct s; [|cbn in Hn; lia]. left. cbn. rewrite Hc. split; reflexivity.
  - destruct s as [|c1 s1].
    + left. cbn. rewrite Hc. split; reflexivity.
    + cbn [String.append strings.TrimLeftSpace]. cbn in Hn.
      destruct (strings.asciiSpace c1); [apply IH; lia|].
      destruct s1 as [|c2 s2].
      * right. cbn [String.append].
        rewrite (asciiSpace_not_second c1 c Hc). reflexivity.
      * cbn [String.append]. cbn in Hn.
        destruct (strings.space2 c1 c2); [apply IH; lia|].
        destruct s2 as [|c3 s3].
        -- right. cbn [String.append].
           rewrite (asciiSpace_not_third c1 c2 c Hc). reflexivity.
        -- cbn [String.append]. cbn in Hn.
           destruct (strings.space3 c1 c2 c3); [apply IH; lia|].
           right. reflexivity.
Qed.

Lemma TrimRightSpace_snoc (s : string) (c : ascii) :
  strings.asciiSpace c = true ->
  strings.TrimRightSpace (s ++ String c "") = strings.TrimRightSpace s.
Proof.
  intros Hc. unfold strings.TrimRightSpace. rewrite rev_app.
  change (strings.rev (String c "")) with (String c "").
  cbn [String.append strings.TrimLeftSpaceRev]. rewrite Hc. reflexivity.
Qed.

(** [TrimSpace] does not see a white space byte at the end. *)
Lemma TrimSpace_snoc (s : string) (c : ascii) :
  strings.asciiSpace c = true ->
  strings.TrimSpace (s ++ String c "") = strings.TrimSpace s.
Proof.
  intros Hc. unfold strings.TrimSpace.
  destruct (TrimLeftSpace_snoc (String.length s) s c (le_n _) Hc) as [[-> ->] | ->].
  - reflexivity.
  - apply TrimRightSpace_snoc, Hc.
Qed.

Lemma lineStep_trim (a b : string) (st : Decoder) :
  strings.TrimSpace a = strings.TrimSpace b -> lineStep a st = lineStep b st.
Proof. intros H. unfold lineStep. rewrite H. reflexivity. Qed.

Lemma Count_app (a b : string) (c : ascii) :
  strings.Count (a ++ b) c = strings.Count a c + strings.Count b c.
Proof.
  induction a as [|x a IH]; cbn [String.append strings.Count]; [lia|].
  rewrite IH. lia.
Qed.

(** A stream with CRLF line endings decodes like the same stream with
    LF line endings: the text, the usage, the request id and the calls
    of the sink are the same. *)
Theorem processStream_accepts_CRLF (ls : list string) (code : Z) (status : string) :
  Forall noLineFeed ls ->
  processStream (mkHTTPResponse code status
                   (bufio.stream (map (fun l => (l ++ cr)%string) ls)))
  = processStream (mkHTTPResponse code status (bufio.stream ls)).
Proof.
  intros Hls. unfold processStream. cbn [RespBody].
  rewrite !readLines_stream.
  2:{ exact Hls. }
  2:{ apply List.Forall_forall. intros x Hx. apply in_map_iff in Hx as (l & <- & Hl).
      unfold noLineFeed. rewrite Count_app.
      rewrite List.Forall_forall in Hls. rewrite (Hls l Hl). reflexivity. }
  rewrite map_map.
  assert (forall st,
            processLines (map (fun l => ((l ++ cr) ++ bufio.lf)%string) ls) st
            = processLines (map (fun l => (l ++ bufio.lf)%string) ls) st) as H.
  { clear Hls. induction ls as [|l ls IH]; intros st; [reflexivity|].
    cbn [map]. rewrite !processLines_cons.
    rewrite (lineStep_trim ((l ++ cr) ++ bufio.lf) (l ++ bufio.lf)).
    - destruct (lineStep _ st); [apply IH|reflexivity].
    - unfold bufio.lf, cr. rewrite !TrimSpace_snoc by reflexivity. reflexivity. }
  rewrite H. reflexivity.
Qed.

End LineEndings.

(* ===================================================================== *)
(** * The further properties at concrete inputs *)
(* ===================================================================== *)

Section MoreExamples.

Import logger llm logs StreamSpec MoreSpec LogsSpec Samples Samples2.
#[local] Existing Instance sampleRuntime2.

Ltac solve_line :=
  unfold dataLine, noLineFeed;
  repeat split; try (vm_compute; (reflexivity || discriminate)).

Lemma line2_a : chunkLine ("data:" ++ chunk_a) (contentChunk "chatcmpl-1" "git ").
Proof. exists chunk_a. split; [solve_line|reflexivity]. Qed.

Lemma line2_b : chunkLine ("data:" ++ chunk_b) (contentChunk "chatcmpl-2" "status").
Proof. exists chunk_b. split; [solve_line|reflexivity]. Qed.

Lemma line2_noid : chunkLine ("data:" ++ chunk_noid) (contentChunk "" "").
Proof. exists chunk_noid. split; [solve_line|reflexivity]. Qed.

Lemma line2_usage1 :
  chunkLine ("data:" ++ chunk_usage1)
            (mkResponseData "chatcmpl-1" "" 0 "" (mkUsage 10 5 15) []).
Proof. exists chunk_usage1. split; [solve_line|reflexivity]. Qed.

Lemma line2_usage2 :
  chunkLine ("data:" ++ chunk_usage2)
            (mkResponseData "chatcmpl-1" "" 0 "" (mkUsage 45 12 57) []).
Proof. exists chunk_usage2. split; [solve_line|reflexivity]. Qed.


(** A whole chunk without its line feed, after a complete stream and
    on its own. *)
Lemma processStream_drops_unterminated_tail_witness :
  processStream (ok200 (body_git ++ "data:" ++ chunk_b)) = processStream (ok200 body_git) /\
  processStream (ok200 ("" ++ "data:" ++ chunk_a)) = processStream (ok200 "").
Proof.
  split.
  - apply (processStream_drops_unterminated_tail 200 "200 OK" body_git ("data:" ++ chunk_b)).
    vm_compute. reflexivity.
  - apply (processStream_drops_unterminated_tail 200 "200 OK" "" ("data:" ++ chunk_a)).
    vm_compute. reflexivity.
Defined.


Lemma processStream_requestID_is_first_witness :
  resultID (processStream (ok200 body_two_ids)) = "chatcmpl-1".
Proof.
  apply (processStream_requestID_is_first
           [""; "data:" ++ chunk_noid] ("data:" ++ chunk_a)
           (contentChunk "chatcmpl-1" "git ") ["data:" ++ chunk_b; sentinel] 200 "200 OK").
  - constructor.
    + left. repeat split; vm_compute; (reflexivity || discriminate).
    + constructor; [|constructor]. right. right.
      exists (contentChunk "" ""). split; [exact line2_noid|reflexivity].
  - exact line2_a.
  - discriminate.
  - repeat constructor.
Defined.

Lemma processStream_usage_is_last_positive_witness :
  resultUsage (processStream (ok200 body_usages)) = mkUsage 45 12 57.
Proof.
  apply (processStream_usage_is_last_positive
           ["data:" ++ chunk_a; "data:" ++ chunk_usage1] ("data:" ++ chunk_usage2)
           (mkResponseData "chatcmpl-1" "" 0 "" (mkUsage 45 12 57) [])
           ["data:" ++ chunk_usage0; sentinel] 200 "200 OK").
  - repeat constructor; vm_compute; discriminate.
  - exact line2_usage2.
  - cbn. lia.
  - constructor; [|constructor; [|constructor]].
    + split; [reflexivity|]. intros chunk (payload & (_ & _ & _ & Hp) & Hj).
      vm_compute in Hp. subst payload. vm_compute in Hj. injection Hj as <-.
      cbn. lia.
    + split; [reflexivity|]. intros chunk (payload & (_ & Hns & _) & _).
      exfalso. apply Hns. vm_compute. reflexivity.
Defined.

Lemma processStream_accepts_CRLF_witness :
  processStream
    (ok200 (stream ["data:" ++ chunk_a ++ cr; cr; "data:" ++ chunk_b ++ cr; cr;
                    sentinel ++ cr; cr]))
  = processStream (ok200 (stream ["data:" ++ chunk_a; ""; "data:" ++ chunk_b; "";
                                  sentinel; ""])).
Proof.
  apply (processStream_accepts_CRLF
           ["data:" ++ chunk_a; ""; "data:" ++ chunk_b; ""; sentinel; ""] 200 "200 OK").
  repeat constructor.
Defined.


Lemma Query_failure_leaves_client_witness :
  answer (Query c_room env_refused [] "show status") = "" /\
  client (Query c_room env_refused [] "show status") = c_room.
Proof.
  apply (Query_failure_leaves_client c_room env_refused [] "show status").
  vm_compute. discriminate.
Defined.


(** With room left in the slice the row holds the user message of the
    configured prompt; with a full slice it holds the question. *)
Lemma Query_success_logged_prompt_witness :
  (exists row,
     store (Query c_room env_git [] "show status") = [row] /\
     id row = "chatcmpl-1" /\
     response row = "git status" /\
     prompt row = "undo last commit") /\
  (exists row,
     store (Query c_full env_git [] "show status") = [row] /\
     id row = "chatcmpl-1" /\
     response row = "git status" /\
     prompt row = "show status").
Proof.
  split.
  - apply (Query_success_logged_prompt c_room env_git [] "show status" enabledLogger
             (mkMessage "assistant" "git status") (mkUsage 10 5 15) "chatcmpl-1"
             [StreamCallback "git "; StreamCallback "git status"]);
      vm_compute; reflexivity.
  - apply (Query_success_logged_prompt c_full env_git [] "show status" enabledLogger
             (mkMessage "assistant" "git status") (mkUsage 10 5 15) "chatcmpl-1"
             [StreamCallback "git "; StreamCallback "git status"]);
      vm_compute; reflexivity.
Defined.

(** The same client with an enabled ledger on an empty table, and
    without a ledger on a table of two rows. *)
Lemma Query_result_independent_of_ledger_witness :
  answer (Query c_full env_git [] "show status")
  = answer (Query (mkLLMClient cfg_user_prompt (ConfigPrompt cfg_user_prompt) 0 None)
                  env_git twoRows "show status") /\
  err (Query c_full env_git [] "show status")
  = err (Query (mkLLMClient cfg_user_prompt (ConfigPrompt cfg_user_prompt) 0 None)
               env_git twoRows "show status") /\
  messages (client (Query c_full env_git [] "show status"))
  = messages (client (Query (mkLLMClient cfg_user_prompt (ConfigPrompt cfg_user_prompt) 0 None)
                            env_git twoRows "show status")) /\
  sinkCalls (trace (Query c_full env_git [] "show status"))
  = sinkCalls (trace (Query (mkLLMClient cfg_user_prompt (ConfigPrompt cfg_user_prompt) 0 None)
                            env_git twoRows "show status")).
Proof.
  apply (Query_result_independent_of_ledger c_full
           (mkLLMClient cfg_user_prompt (ConfigPrompt cfg_user_prompt) 0 None)
           env_git [] twoRows "show status"); reflexivity.
Defined.

Lemma createRequest_one_credential_header_witness :
  exists req,
    createRequest c_azure (queryPayload c_azure [mkMessage "user" "show status"]) = inl req /\
    llm.Header req !! "Api-Key" = Some "azure-key" /\
    llm.Header req !! "Authorization" = None /\
    llm.Header req !! "Openai-Organization" = Some "org-1".
Proof.
  destruct (createRequest_one_credential_header c_azure
              (queryPayload c_azure [mkMessage "user" "show status"]))
    as (req & Hreq & _ & _ & _ & _ & Hcred & Horg).
  { vm_compute. reflexivity. }
  exists req. split; [exact Hreq|].
  change (strings.Contains (Endpoint (config c_azure)) "openai.azure.com") with true in Hcred.
  destruct Hcred as [Hkey Hauth].
  split; [exact Hkey|]. split; [exact Hauth|exact Horg].
Defined.

Lemma Query_without_ledger_witness :
  reqLogger (NewLLMClient cfg os_no_home) = None /\
  store (Query (NewLLMClient cfg os_no_home) env_git twoRows "show status") = twoRows /\
  existsb isLogWarning
    (trace (Query (NewLLMClient cfg os_no_home) env_git twoRows "show status")) = false.
Proof.
  apply (Query_without_ledger cfg os_no_home env_git twoRows "show status").
  vm_compute. discriminate.
Defined.


Lemma GetRecentResponses_at_most_limit_witness :
  Z.of_nat (length (fst (GetRecentResponses enabledLogger 1 twoRows))) <= 1 /\
  (length (fst (GetRecentResponses enabledLogger 1 twoRows)) <= length twoRows)%nat.
Proof.
  apply (GetRecentResponses_at_most_limit enabledLogger 1 twoRows). lia.
Defined.

Lemma GetRecentResponses_newest_first_witness :
  (map RequestID (fst (GetRecentResponses enabledLogger 2
     (fst (LogResponse enabledLogger laterEntry
             (fst (LogResponse enabledLogger sampleEntry []))))))
   = ["test-req-124"; "test-req-123"] /\
   map RequestID (fst (GetRecentResponses enabledLogger 1
     (fst (LogResponse enabledLogger laterEntry
             (fst (LogResponse enabledLogger sampleEntry []))))))
   = ["test-req-124"]) /\
  (map RequestID (fst (GetRecentResponses enabledLogger 2
     (fst (LogResponse enabledLogger sampleEntry
             (fst (LogResponse enabledLogger laterEntry []))))))
   = ["test-req-124"; "test-req-123"] /\
   map RequestID (fst (GetRecentResponses enabledLogger 1
     (fst (LogResponse enabledLogger sampleEntry
             (fst (LogResponse enabledLogger laterEntry []))))))
   = ["test-req-124"]).
Proof.
  apply (GetRecentResponses_newest_first enabledLogger sampleEntry laterEntry);
    try reflexivity.
  - unfold time.valid. cbn. lia.
  - unfold time.valid. cbn. lia.
  - cbn. lia.
  - cbn. lia.
  - discriminate.
  - unfold earlier. cbn. lia.
Defined.

Lemma logs_with_opt_out_witness :
  runLogsCommand flags_default os_disabled twoRows = [NoLogsFound] /\
  runLogsCommand flags_status os_disabled twoRows = [StatusPath; TotalRequests 0].
Proof.
  split.
  - apply (logs_with_opt_out flags_default os_disabled twoRows). vm_compute. discriminate.
  - apply (logs_with_opt_out flags_status os_disabled twoRows). vm_compute. discriminate.
Defined.

Lemma printStatus_counts_by_model_witness :
  exists cost counts,
    printStatus enabledLogger twoRows
    = [StatusPath; TotalRequests 2; TotalTokensLine 0; TotalCostLine cost;
       ByModelHeader; ModelCounts counts] /\
    default 0 (counts !! "gpt-4.1") = 1 /\
    default 0 (counts !! "gpt-4.1-mini") = 1 /\
    default 0 (counts !! "gpt-4o") = 0.
Proof.
  destruct (proj2 (printStatus_counts_by_model enabledLogger twoRows))
    as (cost & counts & Hp & Hc).
  { vm_compute. discriminate. }
  exists cost, counts. split; [exact Hp|].
  rewrite !Hc. repeat split.
Defined.

(** The logs command on a ledger of two rows, one of them logged with
    a total of 27 tokens: the totals shown are zero. *)
Example logs_on_two_rows :
  existsb (fun p => match p with TokensLine 20 7 0 => true | _ => false end)
          (runLogsCommand flags_default os_enabled twoRows) = true /\
  existsb (fun p => match p with TotalTokensLine 0 => true | _ => false end)
          (runLogsCommand flags_status os_enabled twoRows) = true.
Proof. split; vm_compute; reflexivity. Qed.

End MoreExamples.
